(** * Modus: brightness service and monitor resolver

    A shallow embedding of [services/brightness.py] and [utils/monitors.py].

    - Python [int] is [Z]; the [float] values of the percentage computation
      [int((value / max_screen) * 100)] are IEEE 754 binary64 numbers, taken
      from the Standard Library's executable specification [SpecFloat].
    - Mutable attributes of a [Brightness] instance are a record that is
      threaded through the calls; signals, shell commands and log lines are
      collected in a trace.
    - Exceptions are values of [exn]; a [try]/[except] is a function on the
      outcome of the guarded block. *)

From Stdlib Require Import ZArith Lia List Bool String Ascii QArith Qround.
From Stdlib Require Import SpecFloat DecimalString.
Import ListNotations.

Set Warnings "-register-all".

Local Open Scope string_scope.
Local Open Scope Z_scope.

(** ** Exceptions

    The subclasses of Python's [Exception] that the two modules can meet.
    [GLibError] is [gi.repository.GLib.Error]; [OtherException] stands for
    any further subclass of [Exception]. *)

Inductive exn : Type :=
| GLibError
| ZeroDivisionError
| OverflowError
| ValueError
| TypeError
| KeyError
| OtherException.

(** Levels of the [loguru] logger; [Exception] is [logger.exception]. *)
Inductive level : Type := Debug | Info | Warning | Error | Exception.

(** ** Python numbers *)

Module PyFloat.

(** binary64 *)
Definition prec : Z := 53.
Definition emax : Z := 1024.

(** [float(n)] for an [int] operand of [/] and [*].  The integer is kept as
    the mantissa at exponent 0: the operations below round their exact
    result once, which is what CPython's [int / int] does. *)
Definition of_int (n : Z) : spec_float :=
  match n with
  | Z0 => S754_zero false
  | Zpos p => S754_finite false p 0
  | Zneg p => S754_finite true p 0
  end.

Definition div (x y : spec_float) : spec_float := SFdiv prec emax x y.
Definition mul (x y : spec_float) : spec_float := SFmul prec emax x y.

(** The integer part of a finite float, toward zero. *)
Definition trunc_finite (s : bool) (m : positive) (e : Z) : Z :=
  let a := match e with
           | Zneg k => Z.pos m / 2 ^ Z.pos k
           | _ => Z.pos m * 2 ^ e
           end in
  if s then - a else a.

(** [int(x)]: truncation toward zero. *)
Definition to_int (x : spec_float) : exn + Z :=
  match x with
  | S754_zero _ => inr 0
  | S754_finite s m e => inr (trunc_finite s m e)
  | S754_infinity _ => inl OverflowError
  | S754_nan => inl ValueError
  end.



(** [a / b] on two [int]s: true division. *)
Definition truediv (a b : Z) : exn + spec_float :=
  if b =? 0 then inl ZeroDivisionError
  else match div (of_int a) (of_int b) with
       | S754_infinity _ => inl OverflowError
       | q => inr q
       end.

End PyFloat.

(** [str(n)] for an [int]. *)
Definition str_int (n : Z) : string := NilZero.string_of_int (Z.to_int n).

(** [os.path.join(a, b)] for a relative [b]. *)
Fixpoint ends_with_slash (a : string) : bool :=
  match a with
  | EmptyString => false
  | String c EmptyString => Ascii.eqb c "/"%char
  | String _ rest => ends_with_slash rest
  end.

Definition path_join (a b : string) : string :=
  match a with
  | EmptyString => b
  | _ => if ends_with_slash a then a ++ b else a ++ "/" ++ b
  end%string.

(** Truth value of a [str]. *)
Definition truthy (s : string) : bool :=
  match s with
  | EmptyString => false
  | _ => true
  end.

(** ** Text of the files under /sys and /proc

    The text that [f.read()] returns is modelled where it is 7-bit ASCII
    (the kernel writes these files in ASCII).  On such text the string
    operations below are Python's: [str.isspace] holds of the six ASCII
    blanks and of the four separators 28..31, and [str.lower] changes the
    letters A..Z only.  Text outside ASCII is not modelled: there the case
    mapping and the white space are Unicode's. *)

(** Every character is below 128. *)
Definition is_ascii (s : string) : bool :=
  forallb (fun c => (nat_of_ascii c <? 128)%nat) (list_ascii_of_string s).

(** [c.isspace()] for an ASCII character *)
Definition is_space (c : ascii) : bool :=
  let n := nat_of_ascii c in
  ((9 <=? n) && (n <=? 13) || (28 <=? n) && (n <=? 32))%nat.

Fixpoint lstrip (s : string) : string :=
  match s with
  | EmptyString => EmptyString
  | String c rest => if is_space c then lstrip rest else s
  end.

Fixpoint rstrip (s : string) : string :=
  match s with
  | EmptyString => EmptyString
  | String c rest =>
      match rstrip rest with
      | EmptyString => if is_space c then EmptyString else String c EmptyString
      | kept => String c kept
      end
  end.

(** [s.strip()] on ASCII text *)
Definition str_strip (s : string) : string := rstrip (lstrip s).

Definition lower_char (c : ascii) : ascii :=
  let n := nat_of_ascii c in
  if ((65 <=? n) && (n <=? 90))%nat then ascii_of_nat (n + 32) else c.

(** [s.lower()] on ASCII text *)
Fixpoint str_lower (s : string) : string :=
  match s with
  | EmptyString => EmptyString
  | String c rest => String (lower_char c) (str_lower rest)
  end.

(** [needle in hay] *)
Fixpoint str_contains (needle hay : string) : bool :=
  String.prefix needle hay ||
  match hay with
  | EmptyString => false
  | String _ rest => str_contains needle rest
  end.

(** [any(vm_name in text for vm_name in names)] *)
Definition any_in (names : list string) (text : string) : bool :=
  existsb (fun vm_name => str_contains vm_name text) names.

(** How [open(...)] followed by [f.read()] ends: with [FileNotFoundError]
    or another [IOError], which [is_running_in_vm] catches; with
    [UnicodeDecodeError], a [ValueError], which it does not catch; or with
    the text of the file. *)
Inductive read_result : Type :=
| NotReadable
| NotDecodable
| Text (text : string).

(** How a call of [is_running_in_vm] ends.  [OutsideAscii] marks a text
    that this model does not cover. *)
Inductive detection : Type :=
| Returns (vm : bool)
| Raises (e : exn)
| OutsideAscii.

(** [is_running_in_vm()], the same in both modules.  The second file is
    read only when the first gives no match. *)
Definition is_running_in_vm (product_name_file cpuinfo_file : read_result) :
    detection :=
  let by_cpuinfo :=
    match cpuinfo_file with
    | NotReadable => Returns false
    | NotDecodable => Raises ValueError
    | Text cpuinfo =>
        if is_ascii cpuinfo then
          if any_in ["vmware"; "qemu"; "kvm"; "hypervisor"]%string
               (str_lower cpuinfo)
          then Returns true else Returns false
        else OutsideAscii
    end in
  match product_name_file with
  | NotReadable => by_cpuinfo
  | NotDecodable => Raises ValueError
  | Text product_name =>
      if is_ascii product_name then
        if any_in ["vmware"; "virtualbox"; "qemu"; "kvm"; "virtual"; "vm"]%string
             (str_lower (str_strip product_name))
        then Returns true else by_cpuinfo
      else OutsideAscii
  end.

(** ** services/brightness.py *)

Module Brightness.

(** What a call does to the outside: a signal emitted on the service, a
    command handed to [exec_shell_command_async], a line for the logger. *)
Inductive effect : Type :=
| Emit (signal : string) (payload : Z)
| ShellAsync (command : string)
| Log (lvl : level).

(** A file as the service reads it: absent, present with a first line that
    [int] rejects, or present with an integer first line. *)
Inductive file_state : Type :=
| Absent
| Unparsable
| Holds (n : Z).

(** The attributes of an instance. *)
Record t : Type := mk {
  vm_mode : bool;
  simulated_brightness : Z;
  screen_backlight_path : string;
  max_screen : Z;
  screen_monitor : option string
}.

(** Computations of a method: they may raise, they update the instance in
    place (an update made before a raise stays), and they leave a trace. *)
Definition M (A : Type) : Type := t -> (exn + A) * t * list effect.

Definition ret {A} (a : A) : M A := fun self => (inr a, self, []).

Definition bind {A B} (m : M A) (k : A -> M B) : M B :=
  fun self =>
    match m self with
    | (inl e, self', tr) => (inl e, self', tr)
    | (inr a, self', tr) =>
        let '(r, self'', tr') := k a self' in (r, self'', tr ++ tr')%list
    end.

Definition raise {A} (e : exn) : M A := fun self => (inl e, self, []).

Definition tell (ev : effect) : M unit := fun self => (inr tt, self, [ev]).

Definition lift {A} (r : exn + A) : M A := fun self => (r, self, []).

Definition try_except {A} (body : M A) (handler : exn -> M A) : M A :=
  fun self =>
    match body self with
    | (inl e, self', tr) =>
        let '(r, self'', tr') := handler e self' in (r, self'', tr ++ tr')%list
    | done => done
    end.

Notation "x <- m ;; k" := (bind m (fun x => k))
  (at level 61, m at next level, right associativity).
Notation "m ;;; k" := (bind m (fun _ => k))
  (at level 61, right associativity).

(** What [os.listdir("/sys/class/backlight")] does: it raises
    [FileNotFoundError] or returns the entries. *)
Inductive listdir_result : Type :=
| NoSuchDirectory
| Entries (names : list string).

(** The module-level discovery of [screen_device]. *)
Definition discover_screen_device (listing : listdir_result) :
    string * list effect :=
  match listing with
  | Entries (first :: _) => (first, [])
  | Entries [] => (EmptyString, [])
  | NoSuchDirectory => (EmptyString, [Log Warning])
  end.

Section Service.

(** Module-level [screen_device], the files under /sys, and what
    [exec_shell_command_async] does with a command line: [None] when the
    command is submitted, [Some e] when the call raises [e]. *)
Variable screen_device : string.
Variable fs : string -> file_state.
Variable shell : string -> option exn.

Definition exec_shell_command_async (cmd : string) : M unit :=
  tell (ShellAsync cmd) ;;;
  match shell cmd with
  | None => ret tt
  | Some e => raise e
  end.

Definition exec_brightnessctl_async (args : string) : M unit :=
  exec_shell_command_async ("brightnessctl " ++ args)%string.

Definition emit (signal : string) (payload : Z) : M unit :=
  tell (Emit signal payload).

Definition logger (lvl : level) : M unit := tell (Log lvl).

(** [int(f.readline())] on an existing file. *)
Definition read_int (path : string) (missing : exn + Z) : exn + Z :=
  match fs path with
  | Absent => missing
  | Unparsable => inl ValueError
  | Holds n => inr n
  end.

Definition do_read_max_brightness (path : string) : exn + Z :=
  read_int (path_join path "max_brightness") (inr (-1)).

(** [vm_mode and not screen_device] *)
Definition simulated (vm : bool) : bool := vm && negb (truthy screen_device).

(** [Brightness.__init__], given the module-level [vm_mode]. *)
Definition init (vm : bool) : (exn + t) * list effect :=
  let path := if truthy screen_device
              then ("/sys/class/backlight/" ++ screen_device)%string
              else ""%string in
  let max_and_log :=
    if simulated vm then (inr 100, [Log Info])
    else (do_read_max_brightness path, []) in
  match max_and_log with
  | (inl e, tr) => (inl e, tr)
  | (inr m, tr) =>
      if (String.eqb screen_device "" && negb vm)%bool then
        (inr (mk vm 100 path m None), tr)
      else if truthy screen_device then
        (inr (mk vm 100 path m (Some (path ++ "/brightness")%string)),
         (tr ++ [Log Info])%list)
      else
        (inr (mk vm 100 path m None), (tr ++ [Log Info])%list)
  end.

(** The handler connected to the file monitor's [changed] signal; [raw] is
    the integer read from the changed file. *)
Definition screen_monitor_changed (self : t) (raw : Z) : list effect :=
  match screen_monitor self with
  | Some _ => [Emit "screen" raw]
  | None => []
  end.

(** The getter of the [screen_brightness] property. *)
Definition screen_brightness_get : M Z :=
  fun self =>
    if simulated (vm_mode self) then ret (simulated_brightness self) self
    else
      let brightness_path := path_join (screen_backlight_path self) "brightness" in
      match fs brightness_path with
      | Absent => (logger Warning ;;; ret (-1)) self
      | Unparsable => raise ValueError self
      | Holds n => ret n self
      end.

(** [max(0, min(value, self.max_screen))] under its guard. *)
Definition clamp (value max_screen : Z) : Z :=
  if negb ((0 <=? value) && (value <=? max_screen))
  then Z.max 0 (Z.min value max_screen)
  else value.

(** [int((value / self.max_screen) * 100)] *)
Definition percentage (value max_screen : Z) : exn + Z :=
  match PyFloat.truediv value max_screen with
  | inl e => inl e
  | inr q => PyFloat.to_int (PyFloat.mul q (PyFloat.of_int 100))
  end.

Definition set_simulated_brightness (value : Z) : M unit :=
  fun self =>
    (inr tt,
     mk (vm_mode self) value (screen_backlight_path self) (max_screen self)
        (screen_monitor self),
     []).

Definition get_max_screen : M Z := fun self => (inr (max_screen self), self, []).
Definition get_vm_mode : M bool := fun self => (inr (vm_mode self), self, []).

(** The setter of the [screen_brightness] property. *)
Definition screen_brightness_set (value : Z) : M unit :=
  max <- get_max_screen ;;
  let value := clamp value max in
  try_except
    (vm <- get_vm_mode ;;
     if simulated vm then
       set_simulated_brightness value ;;;
       p <- lift (percentage value max) ;;
       emit "screen" p ;;;
       logger Debug
     else
       exec_brightnessctl_async
         ("--device '" ++ screen_device ++ "' set " ++ str_int value)%string ;;;
       p <- lift (percentage value max) ;;
       emit "screen" p)
    (fun e =>
       match e with
       | GLibError => logger Error
       | _ => logger Exception
       end).

End Service.

End Brightness.

(** ** utils/monitors.py *)

Module Monitors.

(** A value returned by [json.loads].  Numbers are the integers (the ids of
    a compositor's reply); an object is its list of fields, one per key. *)
Inductive json : Type :=
| JNull
| JBool (b : bool)
| JInt (n : Z)
| JStr (s : string)
| JArr (items : list json)
| JObj (fields : list (string * json)).

(** A Python [dict] built from such values, in insertion order. *)
Definition dict : Type := list (json * json).

(** Lists and dicts are not hashable. *)
Definition hashable (k : json) : bool :=
  match k with
  | JArr _ | JObj _ => false
  | _ => true
  end.

(** [a == b] on hashable values: [True == 1] and [False == 0]. *)
Definition key_eqb (a b : json) : bool :=
  match a, b with
  | JNull, JNull => true
  | JBool x, JBool y => Bool.eqb x y
  | JBool x, JInt n | JInt n, JBool x => n =? (if x then 1 else 0)
  | JInt n, JInt m => n =? m
  | JStr s, JStr s' => String.eqb s s'
  | _, _ => false
  end.

(** [d[k] = v]: an equal key keeps its place and its first spelling. *)
Fixpoint dict_set (d : dict) (k v : json) : dict :=
  match d with
  | [] => [(k, v)]
  | (k', v') :: rest =>
      if key_eqb k' k then (k', v) :: rest else (k', v') :: dict_set rest k v
  end.

Fixpoint field (key : string) (fields : list (string * json)) : option json :=
  match fields with
  | [] => None
  | (k, v) :: rest => if String.eqb k key then Some v else field key rest
  end.

(** [v[key]] with a string subscript. *)
Definition getitem (v : json) (key : string) : exn + json :=
  match v with
  | JObj fields =>
      match field key fields with
      | Some x => inr x
      | None => inl KeyError
      end
  | _ => inl TypeError
  end.

(** The items a [for] loop draws from a value. *)
Definition iterate (v : json) : exn + list json :=
  match v with
  | JArr items => inr items
  | JObj fields => inr (map (fun kv => JStr (fst kv)) fields)
  | JStr s => inr (map (fun c => JStr (String c EmptyString)) (list_ascii_of_string s))
  | _ => inl TypeError
  end.

(** [{monitor["id"]: monitor["name"] for monitor in monitors}], from the
    entries collected so far. *)
Fixpoint comprehension (monitors : list json) (acc : dict) : exn + dict :=
  match monitors with
  | [] => inr acc
  | monitor :: rest =>
      match getitem monitor "id" with
      | inl e => inl e
      | inr k =>
          match getitem monitor "name" with
          | inl e => inl e
          | inr v =>
              if hashable k then comprehension rest (dict_set acc k v)
              else inl TypeError
          end
      end
  end.

(** What the socket does with a request: [send_command] raises, or there is
    a reply and [json.loads] either parses it or raises. *)
Inductive ipc_reply : Type :=
| SendRaises (e : exn)
| Reply (parsed : option json).

Inductive effect : Type :=
| Send (command : string)
| Log (lvl : level).

(** The display server: [get_n_monitors()] and, per index,
    [get_default_screen().get_monitor_plug_name(i)], each of which may
    raise; a monitor may have no plug name. *)
Record GdkDisplay : Type := {
  get_n_monitors : exn + Z;
  get_monitor_plug_name : Z -> exn + option string
}.

(** An instance: its identity (it is part of the cache key) and its
    attributes. *)
Record HyprlandWithMonitors : Type := {
  ident : nat;
  vm_mode : bool;
  display : GdkDisplay
}.

(** *** lru_cache *)

Section LruCache.

Context {K V : Type}.
Variable eqb : K -> K -> bool.

(** Entries, most recently used first. *)
Definition cache : Type := list (K * V).

Fixpoint lookup (k : K) (c : cache) : option V :=
  match c with
  | [] => None
  | (k', v) :: rest => if eqb k' k then Some v else lookup k rest
  end.

Fixpoint remove (k : K) (c : cache) : cache :=
  match c with
  | [] => []
  | (k', v) :: rest => if eqb k' k then rest else (k', v) :: remove k rest
  end.

(** One call of the wrapper of [lru_cache(maxsize)], where [func] is what
    the wrapped function does when called: a hit moves the entry to the
    front; a miss calls the function, stores its result and drops the least
    recently used entry when the cache is full.  A raise is not stored. *)
Definition lru_call (maxsize : nat) (func : (exn + V) * list effect)
    (k : K) (c : cache) : (exn + V) * cache * list effect :=
  match lookup k c with
  | Some v => (inr v, (k, v) :: remove k c, [])
  | None =>
      match func with
      | (inl e, tr) => (inl e, c, tr)
      | (inr v, tr) => (inr v, firstn maxsize ((k, v) :: c), tr)
      end
  end.

End LruCache.

(** *** HyprlandWithMonitors *)

(** The body of [get_all_monitors]. *)
Definition get_all_monitors_body (ipc : string -> ipc_reply) :
    (exn + dict) * list effect :=
  (match ipc "j/monitors" with
   | SendRaises e => inl e
   | Reply None => inl ValueError
   | Reply (Some monitors) =>
       match iterate monitors with
       | inl e => inl e
       | inr items => comprehension items []
       end
   end,
   [Send "j/monitors"]).

Definition fallback_monitors : dict := [(JInt 0, JStr "XWAYLAND0")].

(** The undecorated [get_all_monitors]: the body under its handler. *)
Definition get_all_monitors_func (self : HyprlandWithMonitors) (ipc : string -> ipc_reply) :
    (exn + dict) * list effect :=
  match get_all_monitors_body ipc with
  | (inl _, tr) =>
      if vm_mode self then (inr fallback_monitors, (tr ++ [Log Warning])%list)
      else (inr [], (tr ++ [Log Error])%list)
  | done => done
  end.

Definition cache_key : Type := Z * nat.

Definition cache_key_eqb (a b : cache_key) : bool :=
  (fst a =? fst b) && Nat.eqb (snd a) (snd b).

Definition monitor_cache : Type := @cache cache_key dict.

(** [time.time() // seconds_to_live], the first component of the key. *)
Definition ttl (seconds_to_live : Z) (now : Q) : Z :=
  Qfloor (now / inject_Z seconds_to_live).

(** [ttl_lru_cache(seconds_to_live, maxsize)] around a method: the call is
    made at wall-clock time [now], against the cache that all instances
    share, under the key [(ttl, self)]. *)
Definition ttl_lru_cache (seconds_to_live : Z) (maxsize : nat)
    (func : HyprlandWithMonitors -> (string -> ipc_reply) ->
            (exn + dict) * list effect)
    (self : HyprlandWithMonitors) (now : Q) (ipc : string -> ipc_reply)
    (c : monitor_cache) : (exn + dict) * monitor_cache * list effect :=
  lru_call cache_key_eqb maxsize (func self ipc)
    (ttl seconds_to_live now, ident self) c.

Definition get_all_monitors :
    HyprlandWithMonitors -> Q -> (string -> ipc_reply) -> monitor_cache ->
    (exn + dict) * monitor_cache * list effect :=
  ttl_lru_cache 100 5 get_all_monitors_func.

(** The [for] loop of [get_gdk_monitor_id_from_name] over the indices that
    [range] yields. *)
Fixpoint scan (d : GdkDisplay) (plug_name : string) (indices : list Z) : option Z :=
  match indices with
  | [] => None
  | i :: rest =>
      match get_monitor_plug_name d i with
      | inr (Some name) =>
          if String.eqb name plug_name then Some i else scan d plug_name rest
      | inr None => scan d plug_name rest
      | inl _ => scan d plug_name rest
      end
  end.

(** [range(n)] *)
Definition range (n : Z) : list Z := map Z.of_nat (seq 0 (Z.to_nat n)).

Definition vm_fallback (self : HyprlandWithMonitors) : option Z :=
  if vm_mode self then Some 0 else None.

Definition get_gdk_monitor_id_from_name (self : HyprlandWithMonitors) (plug_name : string) :
    (exn + option Z) * list effect :=
  match get_n_monitors (display self) with
  | inl _ => (inr (vm_fallback self), [Log Error])
  | inr n =>
      match scan (display self) plug_name (range n) with
      | Some i => (inr (Some i), [])
      | None => (inr (vm_fallback self), [])
      end
  end.

(** [key in d] and [d[key]] *)
Fixpoint dict_get (d : dict) (key : json) : option json :=
  match d with
  | [] => None
  | (k, v) :: rest => if key_eqb k key then Some v else dict_get rest key
  end.

(** [name == plug_name] when the plug name asked for is whatever value the
    compositor's JSON holds: a [str] equals an equal [str], [None] equals
    [None], and nothing else is equal. *)
Definition plug_name_eqb (name : option string) (plug_name : json) : bool :=
  match name, plug_name with
  | Some s, JStr s' => String.eqb s s'
  | None, JNull => true
  | _, _ => false
  end.

(** The loop of [get_gdk_monitor_id_from_name] for such a value. *)
Fixpoint scan_value (d : GdkDisplay) (plug_name : json) (indices : list Z) :
    option Z :=
  match indices with
  | [] => None
  | i :: rest =>
      match get_monitor_plug_name d i with
      | inr name =>
          if plug_name_eqb name plug_name then Some i
          else scan_value d plug_name rest
      | inl _ => scan_value d plug_name rest
      end
  end.

(** [get_gdk_monitor_id_from_name] as its two callers reach it, with a
    value taken from a reply. *)
Definition get_gdk_monitor_id_from_value (self : HyprlandWithMonitors)
    (plug_name : json) : (exn + option Z) * list effect :=
  match get_n_monitors (display self) with
  | inl _ => (inr (vm_fallback self), [Log Error])
  | inr n =>
      match scan_value (display self) plug_name (range n) with
      | Some i => (inr (Some i), [])
      | None => (inr (vm_fallback self), [])
      end
  end.

(** [get_gdk_monitor_id], called at wall-clock time [now]. *)
Definition get_gdk_monitor_id (self : HyprlandWithMonitors) (hyprland_id : Z)
    (now : Q) (ipc : string -> ipc_reply) (c : monitor_cache) :
    (exn + option Z) * monitor_cache * list effect :=
  match get_all_monitors self now ipc c with
  | (inl _, c', tr) => (inr (vm_fallback self), c', (tr ++ [Log Error])%list)
  | (inr monitors, c', tr) =>
      match dict_get monitors (JInt hyprland_id) with
      | Some name =>
          match get_gdk_monitor_id_from_value self name with
          | (inl _, tr') =>
              (inr (vm_fallback self), c', (tr ++ tr' ++ [Log Error])%list)
          | (inr found, tr') => (inr found, c', (tr ++ tr')%list)
          end
      | None => (inr (vm_fallback self), c', tr)
      end
  end.

(** [get_current_gdk_monitor_id] *)
Definition get_current_gdk_monitor_id (self : HyprlandWithMonitors)
    (ipc : string -> ipc_reply) : (exn + option Z) * list effect :=
  let failed := (inr (vm_fallback self), [Send "j/activeworkspace"; Log Error]) in
  match ipc "j/activeworkspace" with
  | SendRaises _ => failed
  | Reply None => failed
  | Reply (Some active_workspace) =>
      match getitem active_workspace "monitor" with
      | inl _ => failed
      | inr name =>
          match get_gdk_monitor_id_from_value self name with
          | (inl _, tr) =>
              (inr (vm_fallback self),
               (Send "j/activeworkspace" :: tr ++ [Log Error])%list)
          | (inr found, tr) => (inr found, Send "j/activeworkspace" :: tr)
          end
      end
  end.

End Monitors.

(** ** Runs and reference formulas *)

(** A run of setter calls on one instance, each with the behaviour of the
    shell at that call. *)
Fixpoint set_all (screen_device : string)
    (calls : list ((string -> option exn) * Z)) (self : Brightness.t) :
    Brightness.t :=
  match calls with
  | [] => self
  | (shell, value) :: rest =>
      set_all screen_device rest
        (snd (fst (Brightness.screen_brightness_set screen_device shell value self)))
  end.

(** The level at which the setter's handlers log a caught exception:
    [logger.error] for [GLib.Error], [logger.exception] for the rest. *)
Definition handler_level (e : exn) : level :=
  match e with
  | GLibError => Error
  | _ => Exception
  end.


(** A display whose outputs are the given per-index lookups. *)
Definition display_of_outputs (outputs : list (exn + option string)) :
    Monitors.GdkDisplay :=
  {| Monitors.get_n_monitors := inr (Z.of_nat (List.length outputs));
     Monitors.get_monitor_plug_name :=
       fun i => nth (Z.to_nat i) outputs (inl OtherException) |}.

(** Output [i] of the display has the plug name asked for: its lookup
    returns, and returns that name. *)
Definition matches (d : Monitors.GdkDisplay) (plug_name : string) (i : Z) : Prop :=
  Monitors.get_monitor_plug_name d i = inr (Some plug_name).


(** The cache key of a call of [get_all_monitors]. *)
Definition key_of_call
    (call : Monitors.HyprlandWithMonitors * Q * (string -> Monitors.ipc_reply)) :
    Monitors.cache_key :=
  (Monitors.ttl 100 (snd (fst call)), Monitors.ident (fst (fst call))).

(** A run of [get_all_monitors] calls against the shared cache: who calls,
    when, and what the socket would answer. *)
Fixpoint get_all_monitors_run
    (calls : list (Monitors.HyprlandWithMonitors * Q * (string -> Monitors.ipc_reply)))
    (c : Monitors.monitor_cache) : Monitors.monitor_cache :=
  match calls with
  | [] => c
  | (self, now, ipc) :: rest =>
      get_all_monitors_run rest
        (snd (fst (Monitors.get_all_monitors self now ipc c)))
  end.

(** * Properties *)

(** ** Rounding in binary64

    Bounds on [binary_round_aux], the rounding step shared by [SFdiv] and
    [SFmul], in integer arithmetic: a mantissa [m] at exponent [e] stands
    for [m * 2 ^ e]. *)

Section Rounding.

Lemma fexp64_eq e : fexp 53 1024 e = Z.max (e - 53) (-1074).
Proof. reflexivity. Qed.

Lemma digits2_pos_size p : digits2_pos p = Pos.size p.
Proof. induction p; simpl; congruence. Qed.

Lemma Zdigits2_log2 p : Zdigits2 (Z.pos p) = Z.log2 (Z.pos p) + 1.
Proof.
  unfold Zdigits2. rewrite digits2_pos_size.
  destruct p; simpl; try reflexivity; rewrite Pos.add_1_r; reflexivity.
Qed.

Lemma Zdigits2_le m j : 0 <= m -> 0 <= j -> m < 2 ^ j -> Zdigits2 m <= j.
Proof.
  intros Hm Hj Hlt. destruct m as [|p|p]; [exact Hj| |lia].
  rewrite Zdigits2_log2.
  assert (Z.log2 (Z.pos p) < j) by (apply Z.log2_lt_pow2; lia). lia.
Qed.

Lemma Zdigits2_mono a b : 0 < a -> a <= b -> Zdigits2 a <= Zdigits2 b.
Proof.
  intros Ha Hab. destruct a as [|p|p]; try lia. destruct b as [|q|q]; try lia.
  rewrite !Zdigits2_log2. pose proof (Z.log2_le_mono _ _ Hab). lia.
Qed.

Lemma shr_1_m mrs : 0 <= shr_m mrs -> shr_m (shr_1 mrs) = shr_m mrs / 2.
Proof.
  destruct mrs as [m r s]. simpl. intros Hm.
  rewrite <- Z.div2_div.
  destruct m as [|[p|p|]|p]; try reflexivity; lia.
Qed.

Lemma iter_pos_nat {A} (f : A -> A) n x :
  iter_pos f n x = Nat.iter (Pos.to_nat n) f x.
Proof.
  revert x. induction n as [n IH|n IH|]; intros x; cbn [iter_pos].
  - rewrite !IH, <- Nat.iter_add, <- Nat.iter_succ_r. f_equal. lia.
  - rewrite !IH, <- Nat.iter_add. f_equal. lia.
  - reflexivity.
Qed.

Lemma iter_shr_1_m n mrs :
  0 <= shr_m mrs ->
  shr_m (Nat.iter n shr_1 mrs) = shr_m mrs / 2 ^ Z.of_nat n.
Proof.
  intros Hm. induction n as [|n IH].
  - simpl. now rewrite Z.div_1_r.
  - assert (Hp : 0 < 2 ^ Z.of_nat n) by (apply Z.pow_pos_nonneg; lia).
    rewrite Nat2Z.inj_succ, Z.pow_succ_r by lia. rewrite Nat.iter_succ.
    rewrite shr_1_m.
    + rewrite IH, Z.div_div by lia. f_equal. lia.
    + rewrite IH. apply Z.div_pos; lia.
Qed.

Lemma shr_record_of_loc_m m l : shr_m (shr_record_of_loc m l) = m.
Proof. destruct l as [|[]]; reflexivity. Qed.

Lemma shr_fexp_spec m e l :
  0 <= m ->
  snd (shr_fexp 53 1024 m e l) = Z.max e (fexp 53 1024 (Zdigits2 m + e)) /\
  shr_m (fst (shr_fexp 53 1024 m e l)) =
    m / 2 ^ (snd (shr_fexp 53 1024 m e l) - e).
Proof.
  intros Hm. unfold shr_fexp, shr.
  destruct (fexp 53 1024 (Zdigits2 m + e) - e) as [|n|n] eqn:Hn; simpl.
  - split; [lia|]. rewrite Z.sub_diag, Z.div_1_r. apply shr_record_of_loc_m.
  - split; [lia|].
    rewrite iter_pos_nat, iter_shr_1_m by (rewrite shr_record_of_loc_m; exact Hm).
    rewrite shr_record_of_loc_m, positive_nat_Z. f_equal. f_equal. lia.
  - split; [lia|]. rewrite Z.sub_diag, Z.div_1_r. apply shr_record_of_loc_m.
Qed.

Lemma round_nearest_even_bounds m l :
  m <= round_nearest_even m l <= m + 1.
Proof.
  destruct l as [|[]]; simpl; try lia. destruct (Z.even m); lia.
Qed.

(** The result of rounding, as integers. *)
Lemma binary_round_aux_cases s mx ex lx :
  0 <= mx ->
  exists m2 e1 e3,
    e1 = Z.max ex (fexp 53 1024 (Zdigits2 mx + ex)) /\
    mx / 2 ^ (e1 - ex) <= m2 <= mx / 2 ^ (e1 - ex) + 1 /\
    e3 = Z.max e1 (fexp 53 1024 (Zdigits2 m2 + e1)) /\
    binary_round_aux 53 1024 s mx ex lx =
      match m2 / 2 ^ (e3 - e1) with
      | Z0 => S754_zero s
      | Zpos p => if e3 <=? 971 then S754_finite s p e3 else S754_infinity s
      | Zneg _ => S754_nan
      end.
Proof.
  intros Hm. unfold binary_round_aux.
  pose proof (shr_fexp_spec mx ex lx Hm) as [He1 Hm1].
  destruct (shr_fexp 53 1024 mx ex lx) as [mrs' e'] eqn:E1. simpl in He1, Hm1.
  set (m2 := round_nearest_even (shr_m mrs') (loc_of_shr_record mrs')).
  assert (Hm2 : shr_m mrs' <= m2 <= shr_m mrs' + 1) by apply round_nearest_even_bounds.
  assert (H0 : 0 <= shr_m mrs').
  { rewrite Hm1. apply Z.div_pos; [lia|]. apply Z.pow_pos_nonneg; lia. }
  pose proof (shr_fexp_spec m2 e' loc_Exact ltac:(lia)) as [He3 Hm3].
  destruct (shr_fexp 53 1024 m2 e' loc_Exact) as [mrs'' e''] eqn:E3.
  simpl in He3, Hm3.
  exists m2, e', e''. rewrite <- Hm1. repeat split; try lia.
  rewrite Hm3. reflexivity.
Qed.

Lemma pow2_pos n : 0 <= n -> 0 < 2 ^ n.
Proof. intros; apply Z.pow_pos_nonneg; lia. Qed.

Lemma pow2_split a b c :
  a <= b -> b <= c -> 2 ^ (c - a) = 2 ^ (c - b) * 2 ^ (b - a).
Proof. intros. rewrite <- Z.pow_add_r by lia. f_equal. lia. Qed.

Lemma binary_round_aux_bounded s mx ex lx k :
  0 <= mx -> ex <= k -> mx < 2 ^ (k - ex) ->
  Z.max ex (fexp 53 1024 (k + 1)) <= 971 ->
  exists m e,
    0 <= m /\ ex <= e <= Z.max ex (fexp 53 1024 (k + 1)) /\
    m * 2 ^ (e - ex) <= mx + 2 ^ (e - ex) /\
    binary_round_aux 53 1024 s mx ex lx =
      match m with
      | Z0 => S754_zero s
      | Zpos p => S754_finite s p e
      | Zneg _ => S754_nan
      end.
Proof.
  intros Hm Hk Hlt HE.
  destruct (binary_round_aux_cases s mx ex lx Hm)
    as (m2 & e1 & e3 & He1 & Hm2 & He3 & Hr).
  rewrite !fexp64_eq in *.
  assert (Hd : Zdigits2 mx <= k - ex) by (apply Zdigits2_le; lia).
  assert (He1' : ex <= e1 <= Z.max ex (Z.max (k - 53) (-1074))) by lia.
  set (m1 := mx / 2 ^ (e1 - ex)) in *.
  assert (Hp1 : 0 < 2 ^ (e1 - ex)) by (apply pow2_pos; lia).
  assert (Hm1 : 0 <= m1) by (apply Z.div_pos; lia).
  assert (Hm1' : m1 * 2 ^ (e1 - ex) <= mx).
  { rewrite Z.mul_comm. apply Z.mul_div_le. lia. }
  assert (Hd2 : Zdigits2 m2 <= Z.max (k + 1) (e1 + 1) - e1).
  { apply Zdigits2_le; [lia|lia|].
    destruct (Z_le_gt_dec e1 k) as [Hle|Hgt].
    - replace (Z.max (k + 1) (e1 + 1) - e1) with (Z.succ (k - e1)) by lia.
      rewrite Z.pow_succ_r by lia.
      assert (m1 < 2 ^ (k - e1)).
      { rewrite (pow2_split ex e1 k) in Hlt by lia.
        assert (0 < 2 ^ (k - e1)) by (apply pow2_pos; lia). nia. }
      lia.
    - replace (Z.max (k + 1) (e1 + 1) - e1) with 1 by lia.
      assert (m1 = 0).
      { apply Z.div_small. split; [lia|].
        apply Z.lt_le_trans with (1 := Hlt). apply Z.pow_le_mono_r; lia. }
      change (2 ^ 1) with 2. lia. }
  assert (He3' : e1 <= e3 <= Z.max ex (Z.max (k + 1 - 53) (-1074))) by lia.
  set (m := m2 / 2 ^ (e3 - e1)) in *.
  assert (Hp3 : 0 < 2 ^ (e3 - e1)) by (apply pow2_pos; lia).
  exists m, e3. repeat split; try lia.
  - apply Z.div_pos; lia.
  - assert (Hm3 : m * 2 ^ (e3 - e1) <= m2).
    { rewrite Z.mul_comm. apply Z.mul_div_le. lia. }
    rewrite (pow2_split ex e1 e3) by lia.
    assert (0 <= m) by (apply Z.div_pos; lia).
    assert (1 <= 2 ^ (e3 - e1)) by lia.
    nia.
  - rewrite Hr. destruct m; try reflexivity.
    replace (e3 <=? 971) with true; [reflexivity|]. symmetry. apply Z.leb_le. lia.
Qed.

(** The quotient digits that [SFdiv] rounds, for [0 < v <= m]. *)
Lemma SFdiv_core_unit v m :
  0 < v -> v <= m ->
  let '(mz, ez, _) := SFdiv_core_binary 53 1024 v 0 m 0 in
  0 <= mz <= 2 ^ (- ez) /\ ez <= -53.
Proof.
  intros Hv Hvm. unfold SFdiv_core_binary.
  pose proof (Zdigits2_mono v m Hv Hvm) as Hd.
  rewrite !Z.add_0_r, fexp64_eq.
  set (ez := Z.min (Z.max (Zdigits2 v - Zdigits2 m - 53) (-1074)) (0 - 0)).
  assert (Hez : ez <= -53) by (subst ez; lia).
  destruct (0 - 0 - ez) as [|sp|sp] eqn:Hs; try lia.
  rewrite Z.shiftl_mul_pow2 by lia.
  assert (Hp : 0 < 2 ^ Z.pos sp) by (apply pow2_pos; lia).
  pose proof (Z_div_mod (v * 2 ^ Z.pos sp) m ltac:(lia)) as Hdm.
  destruct (Z.div_eucl (v * 2 ^ Z.pos sp) m) as [q r].
  destruct Hdm as [Heq Hr].
  replace (- ez) with (Z.pos sp) by lia.
  split; [|exact Hez]. split; nia.
Qed.

(** [v / m] for [0 < v <= m] is a float in [[0, 1 + 2^-51]]. *)
Lemma div_unit (v m : positive) :
  (v <= m)%positive ->
  PyFloat.div (PyFloat.of_int (Z.pos v)) (PyFloat.of_int (Z.pos m))
    = S754_zero false \/
  exists q e,
    PyFloat.div (PyFloat.of_int (Z.pos v)) (PyFloat.of_int (Z.pos m))
      = S754_finite false q e /\
    e <= -51 /\ Z.pos q <= 2 ^ (- e) + 1.
Proof.
  intros Hvm. unfold PyFloat.div, PyFloat.of_int, SFdiv.
  pose proof (SFdiv_core_unit (Z.pos v) (Z.pos m) ltac:(lia) ltac:(lia)) as Hc.
  change PyFloat.prec with 53. change PyFloat.emax with 1024.
  destruct (SFdiv_core_binary 53 1024 (Z.pos v) 0 (Z.pos m) 0) as [[mz ez] lz].
  destruct Hc as [Hmz Hez].
  assert (Hp : 0 < 2 ^ (- ez)) by (apply pow2_pos; lia).
  destruct (binary_round_aux_bounded (xorb false false) mz ez lz 1)
    as (mq & eq & Hmq & Heq & Hle & Hr).
  - lia.
  - lia.
  - replace (1 - ez) with (Z.succ (- ez)) by lia. rewrite Z.pow_succ_r by lia. lia.
  - rewrite fexp64_eq. lia.
  - rewrite fexp64_eq in Heq. rewrite Hr. simpl xorb.
    destruct mq as [|pq|pq]; [left; reflexivity| |lia].
    right. exists pq, eq. split; [reflexivity|]. split; [lia|].
    assert (Hs : 2 ^ (- ez) = 2 ^ (- eq) * 2 ^ (eq - ez)).
    { rewrite <- Z.pow_add_r by lia. f_equal. lia. }
    assert (0 < 2 ^ (eq - ez)) by (apply pow2_pos; lia).
    assert (0 < 2 ^ (- eq)) by (apply pow2_pos; lia).
    nia.
Qed.

(** Such a float times 100 truncates into [[0, 100]]. *)
Lemma mul_100_unit (q : positive) (e : Z) :
  e <= -51 -> Z.pos q <= 2 ^ (- e) + 1 ->
  exists p,
    PyFloat.to_int (PyFloat.mul (S754_finite false q e) (PyFloat.of_int 100))
      = inr p /\
    0 <= p <= 100.
Proof.
  intros He Hq. unfold PyFloat.mul, PyFloat.of_int, SFmul.
  change PyFloat.prec with 53. change PyFloat.emax with 1024.
  assert (H51 : 2 ^ 51 <= 2 ^ (- e)) by (apply Z.pow_le_mono_r; lia).
  destruct (binary_round_aux_bounded (xorb false false)
              (Z.pos (q * 100)) (e + 0) loc_Exact 7)
    as (mp & ep & Hmp & Hep & Hle & Hr).
  - lia.
  - lia.
  - replace (7 - (e + 0)) with (7 + - e) by lia.
    rewrite Z.pow_add_r by lia. change (2 ^ 7) with 128.
    change (2 ^ 51) with 2251799813685248 in H51. lia.
  - rewrite fexp64_eq. lia.
  - rewrite fexp64_eq in Hep. rewrite Hr. simpl xorb.
    destruct mp as [|pp|pp]; [exists 0; simpl; split; [reflexivity|lia]| |lia].
    exists (PyFloat.trunc_finite false pp ep). split; [reflexivity|].
    unfold PyFloat.trunc_finite. destruct ep as [|k|k]; try lia.
    assert (Hk : 2 ^ 45 <= 2 ^ Z.pos k) by (apply Z.pow_le_mono_r; lia).
    change (2 ^ 45) with 35184372088832 in Hk.
    assert (Hs : 2 ^ (- e) = 2 ^ Z.pos k * 2 ^ (Z.neg k - (e + 0))).
    { rewrite <- Z.pow_add_r by lia. f_equal. lia. }
    assert (HX : 0 < 2 ^ (Z.neg k - (e + 0))) by (apply pow2_pos; lia).
    split; [apply Z.div_pos; lia|].
    apply Z.lt_succ_r. apply Z.div_lt_upper_bound; [lia|].
    rewrite Pos2Z.inj_mul in Hle. nia.
Qed.

End Rounding.

(** ** The percentage of the setter *)

Lemma percentage_range v m :
  0 <= v <= m -> 0 < m ->
  exists p, Brightness.percentage v m = inr p /\ 0 <= p <= 100.
Proof.
  intros Hv Hm. unfold Brightness.percentage, PyFloat.truediv.
  destruct (Z.eqb_spec m 0) as [->|_]; [lia|].
  destruct m as [|pm|pm]; try lia.
  destruct v as [|pv|pv]; try lia.
  - exists 0. split; [reflexivity|lia].
  - destruct (div_unit pv pm ltac:(lia)) as [Hz|(q & e & Hq & He & Hle)].
    + rewrite Hz. exists 0. split; [reflexivity|lia].
    + rewrite Hq. apply mul_100_unit; assumption.
Qed.

Lemma clamp_range value max :
  0 <= Brightness.clamp value max <= Z.max 0 max.
Proof.
  unfold Brightness.clamp.
  destruct (0 <=? value) eqn:H0; destruct (value <=? max) eqn:H1; simpl; lia.
Qed.

Lemma clamp_eq value max :
  Brightness.clamp value max =
    if (0 <=? value) && (value <=? max) then value
    else Z.max 0 (Z.min value max).
Proof.
  unfold Brightness.clamp.
  destruct ((0 <=? value) && (value <=? max)); reflexivity.
Qed.

(** The float arithmetic shows through: in simulated mode 29 is reported as
    28, because [29 / 100 * 100] is [28.999999999999996]. *)
Example percentage_29_of_100 : Brightness.percentage 29 100 = inr 28.
Proof. reflexivity. Qed.

Example percentage_of_full_scale : Brightness.percentage 255 255 = inr 100.
Proof. reflexivity. Qed.

Example percentage_zero_max : Brightness.percentage 0 0 = inl ZeroDivisionError.
Proof. reflexivity. Qed.

(** ** The setter, case by case *)

Lemma screen_brightness_set_eq dev shell value self :
  Brightness.screen_brightness_set dev shell value self =
    let max := Brightness.max_screen self in
    let v := Brightness.clamp value max in
    if Brightness.simulated dev (Brightness.vm_mode self) then
      let self' :=
        Brightness.mk (Brightness.vm_mode self) v
          (Brightness.screen_backlight_path self) max
          (Brightness.screen_monitor self) in
      match Brightness.percentage v max with
      | inr p => (inr tt, self', [Brightness.Emit "screen" p; Brightness.Log Debug])
      | inl e => (inr tt, self', [Brightness.Log (handler_level e)])
      end
    else
      let cmd :=
        ("brightnessctl " ++ "--device '" ++ dev ++ "' set " ++ str_int v)%string in
      match shell cmd with
      | Some e =>
          (inr tt, self, [Brightness.ShellAsync cmd; Brightness.Log (handler_level e)])
      | None =>
          match Brightness.percentage v max with
          | inr p =>
              (inr tt, self, [Brightness.ShellAsync cmd; Brightness.Emit "screen" p])
          | inl e =>
              (inr tt, self, [Brightness.ShellAsync cmd; Brightness.Log (handler_level e)])
          end
      end.
Proof.
  unfold Brightness.screen_brightness_set, Brightness.bind, Brightness.try_except,
    Brightness.get_max_screen, Brightness.get_vm_mode,
    Brightness.exec_brightnessctl_async, Brightness.exec_shell_command_async,
    Brightness.set_simulated_brightness, Brightness.lift, Brightness.emit,
    Brightness.logger, Brightness.tell, Brightness.bind, Brightness.ret,
    Brightness.raise.
  cbv zeta.
  destruct (Brightness.simulated dev (Brightness.vm_mode self)).
  - destruct (Brightness.percentage _ _) as [e|p]; [destruct e|]; reflexivity.
  - destruct (shell _) as [e|].
    + destruct e; reflexivity.
    + destruct (Brightness.percentage _ _) as [e|p]; [destruct e|]; reflexivity.
Qed.

(** Case analysis on the setter: its mode, the fate of the command
    submission and the outcome of the percentage computation. *)
Ltac setter_cases :=
  rewrite ?screen_brightness_set_eq; cbv zeta;
  repeat match goal with
         | |- context [if Brightness.simulated ?d ?v then _ else _] =>
             destruct (Brightness.simulated d v) eqn:?
         | |- context [match ?sh ?cmd with Some _ => _ | None => _ end] =>
             destruct (sh cmd) eqn:?
         | |- context [Brightness.percentage ?v ?m] =>
             destruct (Brightness.percentage v m) eqn:?
         end.

Lemma percentage_negative_max m : m < 0 -> Brightness.percentage 0 m = inr 0.
Proof. intros Hm. destruct m; try lia. reflexivity. Qed.

Lemma percentage_total value max :
  max <> 0 -> exists p, Brightness.percentage (Brightness.clamp value max) max = inr p.
Proof.
  intros Hmax. destruct (Z_lt_le_dec 0 max) as [Hpos|Hneg].
  - pose proof (clamp_range value max) as Hc.
    destruct (percentage_range (Brightness.clamp value max) max) as (p & Hp & _);
      [lia|lia|]. now exists p.
  - assert (Hv : Brightness.clamp value max = 0).
    { pose proof (clamp_range value max). lia. }
    rewrite Hv. exists 0. apply percentage_negative_max. lia.
Qed.

(** The setter only ever assigns [simulated_brightness]. *)
Lemma setter_keeps_attributes dev shell value self :
  let self' := snd (fst (Brightness.screen_brightness_set dev shell value self)) in
  Brightness.vm_mode self' = Brightness.vm_mode self /\
  Brightness.max_screen self' = Brightness.max_screen self /\
  Brightness.screen_backlight_path self' = Brightness.screen_backlight_path self /\
  Brightness.screen_monitor self' = Brightness.screen_monitor self.
Proof.
  setter_cases; simpl; auto.
Qed.

Lemma set_all_keeps_attributes dev calls : forall self,
  Brightness.vm_mode (set_all dev calls self) = Brightness.vm_mode self /\
  Brightness.max_screen (set_all dev calls self) = Brightness.max_screen self /\
  Brightness.screen_backlight_path (set_all dev calls self)
    = Brightness.screen_backlight_path self /\
  Brightness.screen_monitor (set_all dev calls self) = Brightness.screen_monitor self.
Proof.
  induction calls as [|[shell value] rest IH]; intros self; simpl; [auto|].
  destruct (IH (snd (fst (Brightness.screen_brightness_set dev shell value self))))
    as (-> & -> & -> & ->).
  apply setter_keeps_attributes.
Qed.

(** In simulated mode the setter stores the clamped value. *)
Lemma setter_stores_clamped dev shell value self :
  Brightness.simulated dev (Brightness.vm_mode self) = true ->
  Brightness.simulated_brightness
    (snd (fst (Brightness.screen_brightness_set dev shell value self)))
    = Brightness.clamp value (Brightness.max_screen self).
Proof.
  intros Hsim. rewrite screen_brightness_set_eq. cbv zeta. rewrite Hsim.
  setter_cases; reflexivity.
Qed.

(** What [__init__] builds when a VM is detected and there is no device. *)
Lemma init_simulated fs :
  Brightness.init "" fs true =
    (inr (Brightness.mk true 100 "" 100 None), [Brightness.Log Info; Brightness.Log Info]).
Proof. reflexivity. Qed.

(** ** Claims on the brightness service *)

(** C1: the setter uses [max(0, min(value, max_screen))] for a value outside
    [[0, max_screen]] and the value itself inside it: in simulated mode that
    is what it stores, in hardware mode that is the value in the command
    line it hands to brightnessctl (before anything else happens).  The value
    used lies in [[0, max(0, max_screen)]]. *)
Theorem setter_clamps_value dev shell value self :
  let max := Brightness.max_screen self in
  let used := if (0 <=? value) && (value <=? max) then value
              else Z.max 0 (Z.min value max) in
  let '(_, self', tr) := Brightness.screen_brightness_set dev shell value self in
  0 <= used <= Z.max 0 max /\
  if Brightness.simulated dev (Brightness.vm_mode self) then
    Brightness.simulated_brightness self' = used
  else
    hd_error tr =
      Some (Brightness.ShellAsync
              ("brightnessctl --device '" ++ dev ++ "' set " ++ str_int used)%string) /\
    Brightness.simulated_brightness self' = Brightness.simulated_brightness self.
Proof.
  cbv zeta. rewrite <- clamp_eq.
  pose proof (clamp_range value (Brightness.max_screen self)) as Hr.
  setter_cases; auto.
Qed.




(** C6: in simulated mode (VM detected, no device, [max_screen = 100]),
    after any earlier setter calls, reading the property right after setting
    it to [v] returns [max(0, min(v, 100))]. *)
Theorem simulated_round_trip fs calls shell v self0 tr0 :
  Brightness.init "" fs true = (inr self0, tr0) ->
  let self := set_all "" calls self0 in
  let self' := snd (fst (Brightness.screen_brightness_set "" shell v self)) in
  Brightness.max_screen self = 100 /\
  Brightness.screen_brightness_get "" fs self' = (inr (Z.max 0 (Z.min v 100)), self', []).
Proof.
  rewrite init_simulated. intros Hinit. injection Hinit as <- _. cbv zeta.
  destruct (set_all_keeps_attributes "" calls (Brightness.mk true 100 "" 100 None))
    as (Hvm & Hmax & _). simpl in Hvm, Hmax.
  set (self := set_all "" calls _) in *.
  split; [exact Hmax|].
  destruct (setter_keeps_attributes "" shell v self) as (Hvm' & _).
  pose proof (setter_stores_clamped "" shell v self) as Hst.
  rewrite Hvm in Hst. specialize (Hst eq_refl).
  unfold Brightness.screen_brightness_get. cbv zeta in Hvm'. rewrite Hvm', Hvm.
  simpl Brightness.simulated. cbv iota. unfold Brightness.ret.
  rewrite Hst, Hmax, clamp_eq.
  destruct (0 <=? v) eqn:H0; destruct (v <=? 100) eqn:H1; simpl;
    repeat f_equal; lia.
Qed.

Lemma simulated_round_trip_witness :
  Brightness.init "" (fun _ => Brightness.Absent) true
    = (inr (Brightness.mk true 100 "" 100 None),
       [Brightness.Log Info; Brightness.Log Info]) /\
  Brightness.screen_brightness_get "" (fun _ => Brightness.Absent)
    (snd (fst (Brightness.screen_brightness_set "" (fun _ => None) 150
                 (set_all "" [(fun _ => None, 40)]
                    (Brightness.mk true 100 "" 100 None)))))
    = (inr 100,
       snd (fst (Brightness.screen_brightness_set "" (fun _ => None) 150
                   (set_all "" [(fun _ => None, 40)]
                      (Brightness.mk true 100 "" 100 None)))),
       []).
Proof.
  split; [reflexivity|].
  exact (proj2 (simulated_round_trip (fun _ => Brightness.Absent)
                  [(fun _ => None, 40)] (fun _ => None) 150 _ _ eq_refl)).
Defined.

(** C7: with [max_screen = -1] every input is clamped to
    [max(0, min(value, -1)) = 0], the division [0 / -1] gives [-0.0] instead
    of raising, and the percentage is 0: the call emits [screen] with 0
    unless the command submission raises. *)
Theorem setter_degenerate_max dev shell value self :
  Brightness.max_screen self = -1 ->
  let v := Brightness.clamp value (Brightness.max_screen self) in
  let cmd := ("brightnessctl --device '" ++ dev ++ "' set 0")%string in
  v = Z.max 0 (Z.min value (-1)) /\
  v = 0 /\
  PyFloat.truediv v (Brightness.max_screen self) = inr (S754_zero true) /\
  Brightness.percentage v (Brightness.max_screen self) = inr 0 /\
  snd (Brightness.screen_brightness_set dev shell value self) =
    (if Brightness.simulated dev (Brightness.vm_mode self) then
       [Brightness.Emit "screen" 0; Brightness.Log Debug]
     else
       Brightness.ShellAsync cmd ::
       match shell cmd with
       | Some e => [Brightness.Log (handler_level e)]
       | None => [Brightness.Emit "screen" 0]
       end).
Proof.
  intros Hmax. cbv zeta. rewrite screen_brightness_set_eq. cbv zeta. rewrite Hmax.
  assert (Hv : Brightness.clamp value (-1) = 0).
  { pose proof (clamp_range value (-1)). lia. }
  rewrite Hv. repeat split; try lia; try reflexivity.
  change (Brightness.percentage 0 (-1)) with (@inr exn Z 0).
  change (str_int 0) with "0"%string.
  destruct (Brightness.simulated _ _); [reflexivity|].
  cbn [String.append]. destruct (shell _); reflexivity.
Qed.

Lemma setter_degenerate_max_witness :
  Brightness.max_screen (Brightness.mk false 100 "" (-1) None) = -1 /\
  Brightness.clamp 70 (-1) = 0 /\
  PyFloat.truediv 0 (-1) = inr (S754_zero true) /\
  snd (Brightness.screen_brightness_set "" (fun _ => None) 70
         (Brightness.mk false 100 "" (-1) None)) =
    [Brightness.ShellAsync "brightnessctl --device '' set 0";
     Brightness.Emit "screen" 0].
Proof.
  split; [reflexivity|].
  destruct (setter_degenerate_max "" (fun _ => None) 70
              (Brightness.mk false 100 "" (-1) None) eq_refl)
    as (_ & Hv & Hdiv & _ & Htr).
  split; [exact Hv|]. split; [exact Hdiv|exact Htr].
Defined.

(** C8 fails as stated: in hardware mode, when the command submission
    raises [GLib.Error], the call returns normally but emits no [screen]
    event. *)
Lemma submission_failure_emits_nothing :
  let res :=
    Brightness.screen_brightness_set "intel_backlight" (fun _ => Some GLibError) 128
      (Brightness.mk false 100 "/sys/class/backlight/intel_backlight" 255
         (Some "/sys/class/backlight/intel_backlight/brightness"%string)) in
  fst (fst res) = inr tt /\
  snd res = [Brightness.ShellAsync "brightnessctl --device 'intel_backlight' set 128";
             Brightness.Log Error] /\
  forall p, ~ In (Brightness.Emit "screen" p) (snd res).
Proof.
  cbv zeta. split; [reflexivity|]. split; [reflexivity|].
  intros p [H|[H|[]]]; discriminate H.
Qed.

(** C8, amended: in hardware mode the setter always returns normally and
    leaves the instance as it was; an exception raised by the command
    submission is caught and logged, and then no [screen] event is emitted;
    the event is emitted when the submission returns and the percentage
    computes. *)
Theorem hardware_setter_catches dev shell value self :
  Brightness.simulated dev (Brightness.vm_mode self) = false ->
  let max := Brightness.max_screen self in
  let v := Brightness.clamp value max in
  let cmd := ("brightnessctl --device '" ++ dev ++ "' set " ++ str_int v)%string in
  Brightness.screen_brightness_set dev shell value self =
    (inr tt, self,
     Brightness.ShellAsync cmd ::
     match shell cmd with
     | Some e => [Brightness.Log (handler_level e)]
     | None =>
         match Brightness.percentage v max with
         | inr p => [Brightness.Emit "screen" p]
         | inl e => [Brightness.Log (handler_level e)]
         end
     end).
Proof.
  intros Hhw. cbv zeta. rewrite screen_brightness_set_eq. cbv zeta. rewrite Hhw.
  destruct (shell _); [reflexivity|].
  destruct (Brightness.percentage _ _); reflexivity.
Qed.

Lemma hardware_setter_catches_witness :
  Brightness.simulated "intel_backlight" false = false /\
  Brightness.screen_brightness_set "intel_backlight" (fun _ => Some OtherException) 300
    (Brightness.mk false 100 "/sys/class/backlight/intel_backlight" 255 None) =
    (inr tt, Brightness.mk false 100 "/sys/class/backlight/intel_backlight" 255 None,
     [Brightness.ShellAsync "brightnessctl --device 'intel_backlight' set 255";
      Brightness.Log Exception]).
Proof.
  split; [reflexivity|].
  exact (hardware_setter_catches "intel_backlight" (fun _ => Some OtherException) 300
           (Brightness.mk false 100 "/sys/class/backlight/intel_backlight" 255 None)
           eq_refl).
Defined.

(** The getter emits no signal, whatever the instance. *)
Lemma getter_emits_nothing dev fs self sig p :
  ~ In (Brightness.Emit sig p) (snd (Brightness.screen_brightness_get dev fs self)).
Proof.
  unfold Brightness.screen_brightness_get.
  destruct (Brightness.simulated _ _); [intros []|].
  destruct (fs _); simpl; intros H; try contradiction.
  destruct H as [H|[]]; discriminate H.
Qed.

(** C9: the code does not keep the instance inert.  With no backlight
    device, no VM and no max_brightness file ([max_screen = -1]), setting
    the brightness to 50 submits [brightnessctl --device '' set 0] and
    emits [screen] with payload 0. *)
Lemma inert_setter_emits :
  exists self tr0,
    Brightness.init "" (fun _ => Brightness.Absent) false = (inr self, tr0) /\
    snd (Brightness.screen_brightness_set "" (fun _ => None) 50 self) =
      [Brightness.ShellAsync "brightnessctl --device '' set 0";
       Brightness.Emit "screen" 0].
Proof.
  exists (Brightness.mk false 100 "" (-1) None), []. split; reflexivity.
Qed.

(** What the instance does keep in that case: construction sets up no file
    watch and emits nothing, so no change of a file raises [screen], and
    the getter raises none either, also after setter calls. *)
Lemma inert_controller fs self tr0 :
  Brightness.init "" fs false = (inr self, tr0) ->
  Brightness.screen_monitor self = None /\
  tr0 = [] /\
  (forall calls raw,
     Brightness.screen_monitor_changed (set_all "" calls self) raw = []) /\
  (forall calls sig p,
     ~ In (Brightness.Emit sig p)
         (snd (Brightness.screen_brightness_get "" fs (set_all "" calls self)))).
Proof.
  unfold Brightness.init. simpl. unfold Brightness.do_read_max_brightness,
    Brightness.read_int. simpl.
  intros Hinit.
  assert (Hself : exists m, self = Brightness.mk false 100 "" m None /\ tr0 = []).
  { destruct (fs "max_brightness"%string); try discriminate Hinit;
      injection Hinit as <- <-; eauto. }
  destruct Hself as (m & -> & ->). clear Hinit.
  split; [reflexivity|]. split; [reflexivity|]. split.
  - intros calls raw. unfold Brightness.screen_monitor_changed.
    destruct (set_all_keeps_attributes "" calls (Brightness.mk false 100 "" m None))
      as (_ & _ & _ & ->). reflexivity.
  - intros calls sig p. apply getter_emits_nothing.
Qed.

Lemma inert_controller_witness :
  Brightness.init "" (fun _ => Brightness.Absent) false
    = (inr (Brightness.mk false 100 "" (-1) None), []) /\
  Brightness.screen_monitor (Brightness.mk false 100 "" (-1) None) = None /\
  Brightness.screen_monitor_changed
    (set_all "" [(fun _ => None, 50)] (Brightness.mk false 100 "" (-1) None)) 7 = [].
Proof.
  split; [reflexivity|].
  destruct (inert_controller (fun _ => Brightness.Absent) _ _ eq_refl)
    as (Hmon & _ & Hch & _).
  split; [exact Hmon|]. exact (Hch [(fun _ => None, 50)] 7).
Defined.

(** C10: in simulated mode [simulated_brightness] starts at 100 and stays in
    [[0, 100]] through any sequence of setter calls, so the getter always
    returns a value in [[0, 100]]. *)
Theorem simulated_brightness_invariant fs calls self0 tr0 :
  Brightness.init "" fs true = (inr self0, tr0) ->
  let self := set_all "" calls self0 in
  Brightness.simulated_brightness self0 = 100 /\
  0 <= Brightness.simulated_brightness self <= 100 /\
  Brightness.screen_brightness_get "" fs self
    = (inr (Brightness.simulated_brightness self), self, []).
Proof.
  rewrite init_simulated. intros Hinit. injection Hinit as <- _. cbv zeta.
  split; [reflexivity|].
  assert (Hinv : forall self,
             Brightness.vm_mode self = true -> Brightness.max_screen self = 100 ->
             0 <= Brightness.simulated_brightness self <= 100 ->
             0 <= Brightness.simulated_brightness (set_all "" calls self) <= 100).
  { induction calls as [|[shell value] rest IH]; intros self Hvm Hmax Hb; simpl;
      [exact Hb|].
    destruct (setter_keeps_attributes "" shell value self) as (Hvm' & Hmax' & _).
    cbv zeta in Hvm', Hmax'.
    apply IH; [congruence|congruence|].
    rewrite setter_stores_clamped by (rewrite Hvm; reflexivity).
    pose proof (clamp_range value (Brightness.max_screen self)). lia. }
  split; [apply Hinv; simpl; lia|].
  destruct (set_all_keeps_attributes "" calls (Brightness.mk true 100 "" 100 None))
    as (Hvm & _). simpl in Hvm.
  unfold Brightness.screen_brightness_get. rewrite Hvm. reflexivity.
Qed.

Lemma simulated_brightness_invariant_witness :
  Brightness.init "" (fun _ => Brightness.Absent) true
    = (inr (Brightness.mk true 100 "" 100 None),
       [Brightness.Log Info; Brightness.Log Info]) /\
  0 <= Brightness.simulated_brightness
         (set_all "" [(fun _ => None, 250); (fun _ => None, -3)]
            (Brightness.mk true 100 "" 100 None)) <= 100.
Proof.
  split; [reflexivity|].
  exact (proj1 (proj2 (simulated_brightness_invariant (fun _ => Brightness.Absent)
                         [(fun _ => None, 250); (fun _ => None, -3)] _ _ eq_refl))).
Defined.

(** ** The scan over the display outputs *)

Section Scan.

Variable d : Monitors.GdkDisplay.
Variable plug_name : string.


Lemma scan_skips i rest :
  ~ matches d plug_name i ->
  Monitors.scan d plug_name (i :: rest) = Monitors.scan d plug_name rest.
Proof.
  unfold matches. intros Hn. simpl.
  destruct (Monitors.get_monitor_plug_name d i) as [e|[name|]]; try reflexivity.
  destruct (String.eqb_spec name plug_name) as [->|_]; [|reflexivity].
  now contradiction Hn.
Qed.

Lemma scan_stops i rest :
  matches d plug_name i -> Monitors.scan d plug_name (i :: rest) = Some i.
Proof.
  unfold matches. intros Hm. simpl. rewrite Hm, String.eqb_refl. reflexivity.
Qed.

Lemma scan_seq_first len : forall a i,
  (a <= i < a + len)%nat ->
  matches d plug_name (Z.of_nat i) ->
  (forall j, (a <= j < i)%nat -> ~ matches d plug_name (Z.of_nat j)) ->
  Monitors.scan d plug_name (map Z.of_nat (seq a len)) = Some (Z.of_nat i).
Proof.
  induction len as [|len IH]; intros a i Hi Hm Hmin; [lia|].
  cbn [seq map]. destruct (Nat.eq_dec a i) as [->|Hne].
  - now apply scan_stops.
  - rewrite scan_skips by (apply Hmin; lia).
    apply IH; [lia|exact Hm|]. intros j Hj. apply Hmin. lia.
Qed.

Lemma scan_seq_none len : forall a,
  (forall j, (a <= j < a + len)%nat -> ~ matches d plug_name (Z.of_nat j)) ->
  Monitors.scan d plug_name (map Z.of_nat (seq a len)) = None.
Proof.
  induction len as [|len IH]; intros a Hnone; [reflexivity|].
  cbn [seq map]. rewrite scan_skips by (apply Hnone; lia).
  apply IH. intros j Hj. apply Hnone. lia.
Qed.

End Scan.

(** A lookup that raises and an output without a plug name are passed
    over. *)
Example scan_passes_over_errors :
  Monitors.scan
    (display_of_outputs [inl OtherException; inr None; inr (Some "HDMI-1"%string)])
    "HDMI-1" (Monitors.range 3) = Some 2.
Proof. reflexivity. Qed.

(** ** Claims on the monitor resolver *)

(** C5: over a display with [n] outputs, [get_gdk_monitor_id_from_name]
    returns the smallest index whose plug name equals [plug_name]; an index
    whose lookup raises or has no plug name is passed over; and when no
    index matches, the result is 0 under VM mode and [None] otherwise. *)
Theorem gdk_monitor_id_first_match self plug_name n :
  Monitors.get_n_monitors (Monitors.display self) = inr n ->
  let r := fst (Monitors.get_gdk_monitor_id_from_name self plug_name) in
  let hit i := matches (Monitors.display self) plug_name i in
  (forall i, 0 <= i < n -> hit i -> (forall j, 0 <= j < i -> ~ hit j) ->
     r = inr (Some i)) /\
  ((forall i, 0 <= i < n -> ~ hit i) ->
     r = inr (if Monitors.vm_mode self then Some 0 else None)).
Proof.
  intros Hn. cbv zeta. unfold Monitors.get_gdk_monitor_id_from_name, Monitors.range.
  rewrite Hn. split.
  - intros i Hi Hm Hmin.
    rewrite (scan_seq_first _ _ (Z.to_nat n) 0%nat (Z.to_nat i)).
    + rewrite Z2Nat.id by lia. reflexivity.
    + lia.
    + rewrite Z2Nat.id by lia. exact Hm.
    + intros j Hj. apply Hmin. lia.
  - intros Hnone. rewrite scan_seq_none; [reflexivity|].
    intros j Hj. apply Hnone. lia.
Qed.

Lemma gdk_monitor_id_first_match_witness :
  let outputs := [inr (Some "eDP-1"%string); inr (Some "HDMI-1"%string)] in
  let resolver vm := Monitors.Build_HyprlandWithMonitors 0 vm (display_of_outputs outputs) in
  fst (Monitors.get_gdk_monitor_id_from_name (resolver false) "HDMI-1") = inr (Some 1) /\
  fst (Monitors.get_gdk_monitor_id_from_name (resolver false) "DP-3") = inr None /\
  fst (Monitors.get_gdk_monitor_id_from_name (resolver true) "DP-3") = inr (Some 0).
Proof.
  cbv zeta.
  assert (Hmiss : forall i, 0 <= i < 2 ->
            ~ matches (display_of_outputs
                         [inr (Some "eDP-1"%string); inr (Some "HDMI-1"%string)])
                "DP-3" i).
  { intros i Hi. assert (Hc : i = 0 \/ i = 1) by lia.
    destruct Hc as [->| ->]; intros H; discriminate H. }
  split; [|split].
  - apply (proj1 (gdk_monitor_id_first_match
                    (Monitors.Build_HyprlandWithMonitors 0 false
                       (display_of_outputs
                          [inr (Some "eDP-1"%string); inr (Some "HDMI-1"%string)]))
                    "HDMI-1" 2 eq_refl) 1).
    + lia.
    + reflexivity.
    + intros j Hj. assert (j = 0) as -> by lia. intros H; discriminate H.
  - exact (proj2 (gdk_monitor_id_first_match
                    (Monitors.Build_HyprlandWithMonitors 0 false
                       (display_of_outputs
                          [inr (Some "eDP-1"%string); inr (Some "HDMI-1"%string)]))
                    "DP-3" 2 eq_refl) Hmiss).
  - exact (proj2 (gdk_monitor_id_first_match
                    (Monitors.Build_HyprlandWithMonitors 0 true
                       (display_of_outputs
                          [inr (Some "eDP-1"%string); inr (Some "HDMI-1"%string)]))
                    "DP-3" 2 eq_refl) Hmiss).
Defined.

(** ** The cache *)

Lemma cache_key_eqb_eq a b : Monitors.cache_key_eqb a b = true <-> a = b.
Proof.
  unfold Monitors.cache_key_eqb. destruct a as [w i], b as [w' i']. simpl.
  rewrite andb_true_iff, Z.eqb_eq, Nat.eqb_eq. split.
  - intros [-> ->]. reflexivity.
  - intros H. injection H as -> ->. auto.
Qed.

Lemma cache_key_eqb_refl a : Monitors.cache_key_eqb a a = true.
Proof. now apply cache_key_eqb_eq. Qed.

Lemma lookup_front k (v : Monitors.dict) c :
  Monitors.lookup Monitors.cache_key_eqb k ((k, v) :: c) = Some v.
Proof. simpl. now rewrite cache_key_eqb_refl. Qed.


Lemma firstn_incl {A} n (l : list A) e : In e (firstn n l) -> In e l.
Proof.
  revert l. induction n as [|n IH]; intros [|x l]; simpl; intuition.
Qed.


(** The undecorated function returns a dict whatever the socket does. *)
Lemma get_all_monitors_func_returns self ipc :
  exists d, fst (Monitors.get_all_monitors_func self ipc) = inr d.
Proof.
  unfold Monitors.get_all_monitors_func.
  destruct (Monitors.get_all_monitors_body ipc) as [[e|d] tr].
  - destruct (Monitors.vm_mode self); simpl; eauto.
  - simpl; eauto.
Qed.

Lemma get_all_monitors_func_sends self ipc :
  hd_error (snd (Monitors.get_all_monitors_func self ipc))
    = Some (Monitors.Send "j/monitors").
Proof.
  unfold Monitors.get_all_monitors_func, Monitors.get_all_monitors_body.
  destruct (ipc _) as [e|[j|]];
    try (destruct (Monitors.vm_mode self); reflexivity).
  destruct (Monitors.iterate j) as [e|items];
    [destruct (Monitors.vm_mode self); reflexivity|].
  destruct (Monitors.comprehension items []);
    [destruct (Monitors.vm_mode self)|]; reflexivity.
Qed.

(** Any raise in the body, also one from the comprehension, ends in the
    fallback. *)
Lemma get_all_monitors_func_failure self ipc e :
  fst (Monitors.get_all_monitors_body ipc) = inl e ->
  fst (Monitors.get_all_monitors_func self ipc) =
    inr (if Monitors.vm_mode self then Monitors.fallback_monitors else []).
Proof.
  unfold Monitors.get_all_monitors_func.
  destruct (Monitors.get_all_monitors_body ipc) as [[e'|d] tr]; simpl;
    [|discriminate].
  intros _. destruct (Monitors.vm_mode self); reflexivity.
Qed.

Example monitor_without_name :
  fst (Monitors.get_all_monitors_func
         (Monitors.Build_HyprlandWithMonitors 0 true (display_of_outputs []))
         (fun _ => Monitors.Reply (Some (Monitors.JArr
            [Monitors.JObj [("id"%string, Monitors.JInt 0)]]))))
    = inr [(Monitors.JInt 0, Monitors.JStr "XWAYLAND0")].
Proof. reflexivity. Qed.

Example monitors_of_reply :
  fst (Monitors.get_all_monitors_func
         (Monitors.Build_HyprlandWithMonitors 0 false (display_of_outputs []))
         (fun _ => Monitors.Reply (Some (Monitors.JArr
            [Monitors.JObj [("id"%string, Monitors.JInt 0);
                            ("name"%string, Monitors.JStr "eDP-1");
                            ("width"%string, Monitors.JInt 1920)];
             Monitors.JObj [("id"%string, Monitors.JInt 1);
                            ("name"%string, Monitors.JStr "HDMI-A-1")]]))))
    = inr [(Monitors.JInt 0, Monitors.JStr "eDP-1");
           (Monitors.JInt 1, Monitors.JStr "HDMI-A-1")].
Proof. reflexivity. Qed.

(** A hit: the cached dict comes back, nothing is sent, the entry stays. *)
Lemma get_all_monitors_hit self now ipc c d :
  Monitors.lookup Monitors.cache_key_eqb (Monitors.ttl 100 now, Monitors.ident self) c
    = Some d ->
  exists c',
    Monitors.get_all_monitors self now ipc c = (inr d, c', []) /\
    Monitors.lookup Monitors.cache_key_eqb
      (Monitors.ttl 100 now, Monitors.ident self) c' = Some d.
Proof.
  intros Hl. unfold Monitors.get_all_monitors, Monitors.ttl_lru_cache, Monitors.lru_call. rewrite Hl.
  eexists. split; [reflexivity|]. apply lookup_front.
Qed.

(** A miss: the function runs and its result is stored at the front. *)
Lemma get_all_monitors_miss self now ipc c :
  Monitors.lookup Monitors.cache_key_eqb (Monitors.ttl 100 now, Monitors.ident self) c
    = None ->
  exists d c',
    Monitors.get_all_monitors_func self ipc
      = (inr d, snd (Monitors.get_all_monitors_func self ipc)) /\
    Monitors.get_all_monitors self now ipc c
      = (inr d, c', snd (Monitors.get_all_monitors_func self ipc)) /\
    Monitors.lookup Monitors.cache_key_eqb
      (Monitors.ttl 100 now, Monitors.ident self) c' = Some d.
Proof.
  intros Hl. unfold Monitors.get_all_monitors, Monitors.ttl_lru_cache, Monitors.lru_call. rewrite Hl.
  destruct (get_all_monitors_func_returns self ipc) as (d & Hd).
  destruct (Monitors.get_all_monitors_func self ipc) as [r tr]. simpl in Hd. subst r.
  exists d. eexists. split; [reflexivity|]. split; [reflexivity|].
  simpl firstn. apply lookup_front.
Qed.



(** C4: when the call reaches the socket (nothing cached for its key) and
    the request raises or the reply does not parse, [get_all_monitors]
    returns normally: the mapping [{0: "XWAYLAND0"}] under VM mode, the
    empty mapping otherwise. *)
Theorem get_all_monitors_fallback self now ipc c :
  Monitors.lookup Monitors.cache_key_eqb
    (Monitors.ttl 100 now, Monitors.ident self) c = None ->
  (exists e, ipc "j/monitors"%string = Monitors.SendRaises e) \/
  ipc "j/monitors"%string = Monitors.Reply None ->
  fst (fst (Monitors.get_all_monitors self now ipc c)) =
    inr (if Monitors.vm_mode self
         then [(Monitors.JInt 0, Monitors.JStr "XWAYLAND0")]
         else []).
Proof.
  intros Hl Hfail. unfold Monitors.get_all_monitors, Monitors.ttl_lru_cache, Monitors.lru_call. rewrite Hl.
  unfold Monitors.get_all_monitors_func, Monitors.get_all_monitors_body.
  destruct Hfail as [[e ->]| ->]; destruct (Monitors.vm_mode self); reflexivity.
Qed.

Lemma get_all_monitors_fallback_witness :
  fst (fst (Monitors.get_all_monitors
              (Monitors.Build_HyprlandWithMonitors 0 true (display_of_outputs []))
              (inject_Z 1000) (fun _ => Monitors.SendRaises OtherException) []))
    = inr [(Monitors.JInt 0, Monitors.JStr "XWAYLAND0")] /\
  fst (fst (Monitors.get_all_monitors
              (Monitors.Build_HyprlandWithMonitors 0 false (display_of_outputs []))
              (inject_Z 1000) (fun _ => Monitors.Reply None) []))
    = inr [].
Proof.
  split.
  - exact (get_all_monitors_fallback
             (Monitors.Build_HyprlandWithMonitors 0 true (display_of_outputs []))
             (inject_Z 1000) (fun _ => Monitors.SendRaises OtherException) []
             eq_refl (or_introl (ex_intro _ OtherException eq_refl))).
  - exact (get_all_monitors_fallback
             (Monitors.Build_HyprlandWithMonitors 0 false (display_of_outputs []))
             (inject_Z 1000) (fun _ => Monitors.Reply None) []
             eq_refl (or_intror eq_refl)).
Defined.
(** * Further properties of the monitor resolver *)

(** ** The mapping built from a reply *)

Lemma key_eqb_sym a b : Monitors.key_eqb a b = Monitors.key_eqb b a.
Proof.
  destruct a as [|[]|a|a|a|a], b as [|[]|b|b|b|b]; simpl; try reflexivity;
    try apply Z.eqb_sym; apply String.eqb_sym.
Qed.

Lemma key_eqb_trans k' k q :
  Monitors.key_eqb k' k = true -> Monitors.key_eqb k' q = Monitors.key_eqb k q.
Proof.
  destruct k' as [|[]|a|a|a|a], k as [|[]|b|b|b|b]; simpl; try discriminate;
    intros H; try apply Z.eqb_eq in H; try apply String.eqb_eq in H; subst;
    destruct q as [|[]|c|c|c|c]; simpl; try reflexivity;
    try (rewrite Z.eqb_sym; reflexivity).
Qed.

(** Lookup after an assignment. *)
Lemma dict_get_set d k v q :
  Monitors.dict_get (Monitors.dict_set d k v) q =
    if Monitors.key_eqb k q then Some v else Monitors.dict_get d q.
Proof.
  induction d as [|[k' v'] rest IH]; simpl; [reflexivity|].
  destruct (Monitors.key_eqb k' k) eqn:Hk; simpl.
  - rewrite (key_eqb_trans k' k q Hk). destruct (Monitors.key_eqb k q); reflexivity.
  - rewrite IH. destruct (Monitors.key_eqb k' q) eqn:Hq; [|reflexivity].
    destruct (Monitors.key_eqb k q) eqn:Hkq; [|reflexivity].
    rewrite key_eqb_sym in Hq.
    rewrite key_eqb_sym, (key_eqb_trans k q k' Hkq), Hq in Hk. discriminate.
Qed.

Lemma comprehension_lookup items : forall entries acc,
  Forall2 (fun monitor entry =>
             Monitors.getitem monitor "id" = inr (Monitors.JInt (fst entry)) /\
             Monitors.getitem monitor "name" = inr (snd entry)) items entries ->
  exists d,
    Monitors.comprehension items acc = inr d /\
    (forall pre id name post,
       entries = (pre ++ (id, name) :: post)%list -> ~ In id (map fst post) ->
       Monitors.dict_get d (Monitors.JInt id) = Some name) /\
    (forall q,
       (forall id, In id (map fst entries) ->
                   Monitors.key_eqb (Monitors.JInt id) q = false) ->
       Monitors.dict_get d q = Monitors.dict_get acc q).
Proof.
  induction items as [|monitor items IH]; intros entries acc Hwf;
    inversion Hwf as [|? [id0 name0] ? entries' [Hid Hname] Hrest]; subst.
  - exists acc. split; [reflexivity|]. split; [|reflexivity].
    intros [|] ? ? ? H; discriminate H.
  - simpl in Hid, Hname. cbn [Monitors.comprehension]. rewrite Hid, Hname.
    cbn [Monitors.hashable].
    destruct (IH entries' (Monitors.dict_set acc (Monitors.JInt id0) name0) Hrest)
      as (d & Hd & Hlast & Hother).
    exists d. split; [exact Hd|]. split.
    + intros [|e pre] id name post Heq Hnot; simpl in Heq; injection Heq as ? ?; subst.
      * rewrite Hother, dict_get_set.
        -- simpl. now rewrite Z.eqb_refl.
        -- intros id' Hin. simpl. apply Z.eqb_neq. intros ->. contradiction.
      * eapply Hlast; [reflexivity|exact Hnot].
    + intros q Hq. rewrite Hother, dict_get_set.
      * rewrite (Hq id0) by (simpl; auto). reflexivity.
      * intros id' Hin. apply Hq. simpl; auto.
Qed.

(** X1: for a reply that is a list of objects with an integer ["id"] and a
    ["name"], the mapping returned gives, for each id, the name of the last
    monitor listed with that id, and has no key for an id not listed. *)
Theorem monitors_mapping_lookup self ipc items entries :
  ipc "j/monitors"%string = Monitors.Reply (Some (Monitors.JArr items)) ->
  Forall2 (fun monitor entry =>
             Monitors.getitem monitor "id" = inr (Monitors.JInt (fst entry)) /\
             Monitors.getitem monitor "name" = inr (snd entry)) items entries ->
  exists d,
    fst (Monitors.get_all_monitors_func self ipc) = inr d /\
    (forall pre id name post,
       entries = (pre ++ (id, name) :: post)%list -> ~ In id (map fst post) ->
       Monitors.dict_get d (Monitors.JInt id) = Some name) /\
    (forall id, ~ In id (map fst entries) ->
       Monitors.dict_get d (Monitors.JInt id) = None).
Proof.
  intros Hipc Hwf.
  destruct (comprehension_lookup items entries [] Hwf) as (d & Hd & Hlast & Hother).
  exists d. split; [|split; [exact Hlast|]].
  - unfold Monitors.get_all_monitors_func, Monitors.get_all_monitors_body.
    rewrite Hipc. cbn [Monitors.iterate]. rewrite Hd. reflexivity.
  - intros id Hnot. rewrite Hother; [reflexivity|].
    intros id' Hin. simpl. apply Z.eqb_neq. intros ->. contradiction.
Qed.

Lemma monitors_mapping_lookup_witness :
  let eDP := Monitors.JObj [("id"%string, Monitors.JInt 0);
                            ("name"%string, Monitors.JStr "eDP-1");
                            ("width"%string, Monitors.JInt 1920)] in
  let old := Monitors.JObj [("id"%string, Monitors.JInt 1);
                            ("name"%string, Monitors.JStr "HDMI-A-1")] in
  let new := Monitors.JObj [("name"%string, Monitors.JStr "DP-2");
                            ("id"%string, Monitors.JInt 1)] in
  exists d,
    fst (Monitors.get_all_monitors_func
           (Monitors.Build_HyprlandWithMonitors 0 false (display_of_outputs []))
           (fun _ => Monitors.Reply (Some (Monitors.JArr [eDP; old; new])))) = inr d /\
    Monitors.dict_get d (Monitors.JInt 0) = Some (Monitors.JStr "eDP-1") /\
    Monitors.dict_get d (Monitors.JInt 1) = Some (Monitors.JStr "DP-2") /\
    Monitors.dict_get d (Monitors.JInt 2) = None.
Proof.
  cbv zeta.
  destruct (monitors_mapping_lookup
              (Monitors.Build_HyprlandWithMonitors 0 false (display_of_outputs []))
              (fun _ => Monitors.Reply (Some (Monitors.JArr
                 [Monitors.JObj [("id"%string, Monitors.JInt 0);
                                 ("name"%string, Monitors.JStr "eDP-1");
                                 ("width"%string, Monitors.JInt 1920)];
                  Monitors.JObj [("id"%string, Monitors.JInt 1);
                                 ("name"%string, Monitors.JStr "HDMI-A-1")];
                  Monitors.JObj [("name"%string, Monitors.JStr "DP-2");
                                 ("id"%string, Monitors.JInt 1)]])))
              _
              [(0, Monitors.JStr "eDP-1"); (1, Monitors.JStr "HDMI-A-1");
               (1, Monitors.JStr "DP-2")]
              eq_refl ltac:(repeat constructor))
    as (d & Hd & Hlast & Hnone).
  exists d. split; [exact Hd|]. split; [|split].
  - apply (Hlast [] 0 (Monitors.JStr "eDP-1")
             [(1, Monitors.JStr "HDMI-A-1"); (1, Monitors.JStr "DP-2")] eq_refl).
    simpl. intros [H|[H|[]]]; discriminate H.
  - apply (Hlast [(0, Monitors.JStr "eDP-1"); (1, Monitors.JStr "HDMI-A-1")] 1
             (Monitors.JStr "DP-2") [] eq_refl).
    intros [].
  - apply Hnone. simpl. intros [H|[H|[H|[]]]]; discriminate H.
Defined.

Lemma comprehension_fails items bad : forall acc,
  In bad items ->
  (exists e, Monitors.getitem bad "id" = inl e) \/
  (exists e, Monitors.getitem bad "name" = inl e) ->
  exists e, Monitors.comprehension items acc = inl e.
Proof.
  induction items as [|monitor items IH]; intros acc Hin Hbad; [contradiction|].
  cbn [Monitors.comprehension].
  destruct (Monitors.getitem monitor "id") as [e|k] eqn:Hid; [eauto|].
  destruct (Monitors.getitem monitor "name") as [e|v] eqn:Hname; [eauto|].
  destruct (Monitors.hashable k); [|eauto].
  destruct Hin as [->|Hin]; [|eauto].
  destruct Hbad as [[e He]|[e He]]; congruence.
Qed.

(** X2: one monitor of the reply without an ["id"] or a ["name"] discards
    the whole reply: the result is the fallback mapping, whatever the other
    monitors are. *)
Theorem malformed_monitor_discards_reply self ipc items bad :
  ipc "j/monitors"%string = Monitors.Reply (Some (Monitors.JArr items)) ->
  In bad items ->
  (exists e, Monitors.getitem bad "id" = inl e) \/
  (exists e, Monitors.getitem bad "name" = inl e) ->
  fst (Monitors.get_all_monitors_func self ipc) =
    inr (if Monitors.vm_mode self
         then [(Monitors.JInt 0, Monitors.JStr "XWAYLAND0")]
         else []).
Proof.
  intros Hipc Hin Hbad.
  destruct (comprehension_fails items bad [] Hin Hbad) as (e & He).
  apply (get_all_monitors_func_failure self ipc e).
  unfold Monitors.get_all_monitors_body. rewrite Hipc. cbn [Monitors.iterate fst].
  exact He.
Qed.

Lemma malformed_monitor_discards_reply_witness :
  fst (Monitors.get_all_monitors_func
         (Monitors.Build_HyprlandWithMonitors 0 false (display_of_outputs []))
         (fun _ => Monitors.Reply (Some (Monitors.JArr
            [Monitors.JObj [("id"%string, Monitors.JInt 0);
                            ("name"%string, Monitors.JStr "eDP-1")];
             Monitors.JObj [("id"%string, Monitors.JInt 1)]]))))
    = inr [].
Proof.
  exact (malformed_monitor_discards_reply
           (Monitors.Build_HyprlandWithMonitors 0 false (display_of_outputs []))
           (fun _ => Monitors.Reply (Some (Monitors.JArr
              [Monitors.JObj [("id"%string, Monitors.JInt 0);
                              ("name"%string, Monitors.JStr "eDP-1")];
               Monitors.JObj [("id"%string, Monitors.JInt 1)]])))
           _ (Monitors.JObj [("id"%string, Monitors.JInt 1)])
           eq_refl (or_intror (or_introl eq_refl))
           (or_intror (ex_intro _ KeyError eq_refl))).
Defined.

(** ** The cache as a bounded, least-recently-used store *)

Lemma cache_key_eqb_neq a b : a <> b -> Monitors.cache_key_eqb a b = false.
Proof.
  intros Hne. destruct (Monitors.cache_key_eqb a b) eqn:H; [|reflexivity].
  apply cache_key_eqb_eq in H. contradiction.
Qed.

Lemma lookup_none_iff k (c : Monitors.monitor_cache) :
  Monitors.lookup Monitors.cache_key_eqb k c = None <-> ~ In k (map fst c).
Proof.
  induction c as [|[k' v] rest IH]; simpl; [tauto|].
  destruct (Monitors.cache_key_eqb k' k) eqn:Hk.
  - apply cache_key_eqb_eq in Hk. subst. split; [discriminate|tauto].
  - rewrite IH. split; [|tauto].
    intros Hn [->|H]; [|tauto]. rewrite cache_key_eqb_refl in Hk. discriminate.
Qed.

Lemma lookup_some_in k d (c : Monitors.monitor_cache) :
  Monitors.lookup Monitors.cache_key_eqb k c = Some d -> In k (map fst c).
Proof.
  induction c as [|[k' v] rest IH]; simpl; [discriminate|].
  destruct (Monitors.cache_key_eqb k' k) eqn:Hk; [|tauto].
  apply cache_key_eqb_eq in Hk. auto.
Qed.

Lemma lookup_behind k d (front back : Monitors.monitor_cache) :
  ~ In k (map fst front) ->
  Monitors.lookup Monitors.cache_key_eqb k (front ++ (k, d) :: back)%list = Some d.
Proof.
  induction front as [|[k' v] front IH]; simpl; intros Hn.
  - now rewrite cache_key_eqb_refl.
  - rewrite cache_key_eqb_neq by (intros ->; tauto). apply IH. tauto.
Qed.

Lemma remove_fresh k (c : Monitors.monitor_cache) :
  ~ In k (map fst c) -> Monitors.remove Monitors.cache_key_eqb k c = c.
Proof.
  induction c as [|[k' v] rest IH]; simpl; intros Hn; [reflexivity|].
  rewrite cache_key_eqb_neq by (intros ->; tauto). f_equal. apply IH. tauto.
Qed.

Lemma remove_length k (c : Monitors.monitor_cache) :
  (List.length (Monitors.remove Monitors.cache_key_eqb k c) <= List.length c)%nat /\
  (In k (map fst c) ->
   S (List.length (Monitors.remove Monitors.cache_key_eqb k c)) = List.length c).
Proof.
  induction c as [|[k' v] rest [IH1 IH2]]; simpl; [split; [lia|tauto]|].
  destruct (Monitors.cache_key_eqb k' k) eqn:Hk; simpl.
  - split; [lia|reflexivity].
  - split; [lia|]. intros [->|H]; [|rewrite IH2 by exact H; reflexivity].
    rewrite cache_key_eqb_refl in Hk. discriminate.
Qed.

Lemma remove_keys_incl k (c : Monitors.monitor_cache) x :
  In x (map fst (Monitors.remove Monitors.cache_key_eqb k c)) -> In x (map fst c).
Proof.
  induction c as [|[k' v] rest IH]; simpl; [auto|].
  destruct (Monitors.cache_key_eqb k' k); simpl; tauto.
Qed.

Lemma remove_NoDup k (c : Monitors.monitor_cache) :
  NoDup (map fst c) ->
  NoDup (map fst (Monitors.remove Monitors.cache_key_eqb k c)) /\
  ~ In k (map fst (Monitors.remove Monitors.cache_key_eqb k c)).
Proof.
  induction c as [|[k' v] rest IH]; simpl; intros Hnd; [split; [constructor|tauto]|].
  inversion Hnd as [|? ? Hnotin Hrest]; subst.
  destruct (Monitors.cache_key_eqb k' k) eqn:Hk; simpl.
  - apply cache_key_eqb_eq in Hk. subst. tauto.
  - destruct (IH Hrest) as [IH1 IH2]. split.
    + constructor; [|exact IH1]. intros H. apply remove_keys_incl in H. tauto.
    + intros [->|H]; [|tauto]. rewrite cache_key_eqb_refl in Hk. discriminate.
Qed.

Lemma NoDup_firstn {A} n (l : list A) : NoDup l -> NoDup (firstn n l).
Proof.
  revert l. induction n as [|n IH]; intros [|x l] Hnd; simpl; try constructor.
  - inversion Hnd; subst. intros H. apply firstn_incl in H. tauto.
  - inversion Hnd; subst. auto.
Qed.

(** One call, whatever its outcome: the key of the call goes to the front,
    its former entry is taken out, and at most five entries are kept. *)
Lemma get_all_monitors_step self now ipc (c : Monitors.monitor_cache) :
  (List.length c <= 5)%nat ->
  exists d,
    fst (fst (Monitors.get_all_monitors self now ipc c)) = inr d /\
    snd (fst (Monitors.get_all_monitors self now ipc c)) =
      firstn 5 ((Monitors.ttl 100 now, Monitors.ident self, d)
                  :: Monitors.remove Monitors.cache_key_eqb
                       (Monitors.ttl 100 now, Monitors.ident self) c).
Proof.
  intros Hlen.
  destruct (Monitors.lookup Monitors.cache_key_eqb
              (Monitors.ttl 100 now, Monitors.ident self) c) as [d|] eqn:Hl.
  - exists d. unfold Monitors.get_all_monitors, Monitors.ttl_lru_cache, Monitors.lru_call.
    rewrite Hl. cbn [fst snd]. split; [reflexivity|].
    rewrite firstn_all2; [reflexivity|].
    pose proof (lookup_some_in _ _ _ Hl) as Hin.
    destruct (remove_length (Monitors.ttl 100 now, Monitors.ident self) c) as [_ H].
    specialize (H Hin). cbn [List.length].
    apply (Nat.le_trans _ (List.length c)); [apply Nat.eq_le_incl; exact H|exact Hlen].
  - destruct (get_all_monitors_miss self now ipc c Hl) as (d & c' & _ & E & _).
    exists d.
    unfold Monitors.get_all_monitors, Monitors.ttl_lru_cache, Monitors.lru_call in *.
    rewrite Hl in *.
    destruct (Monitors.get_all_monitors_func self ipc) as [[e|d'] tr];
      [discriminate E|].
    inversion E; subst. cbn [fst snd]. split; [reflexivity|].
    rewrite remove_fresh by (apply lookup_none_iff; exact Hl). reflexivity.
Qed.

Lemma get_all_monitors_well_formed self now ipc (c : Monitors.monitor_cache) :
  (List.length c <= 5)%nat -> NoDup (map fst c) ->
  (List.length (snd (fst (Monitors.get_all_monitors self now ipc c))) <= 5)%nat /\
  NoDup (map fst (snd (fst (Monitors.get_all_monitors self now ipc c)))).
Proof.
  intros Hlen Hnd.
  destruct (get_all_monitors_step self now ipc c Hlen) as (d & _ & ->).
  split; [apply firstn_le_length|].
  rewrite <- firstn_map. apply NoDup_firstn. cbn [map fst].
  destruct (remove_NoDup (Monitors.ttl 100 now, Monitors.ident self) c Hnd).
  now constructor.
Qed.

Lemma get_all_monitors_run_well_formed calls : forall c : Monitors.monitor_cache,
  (List.length c <= 5)%nat -> NoDup (map fst c) ->
  (List.length (get_all_monitors_run calls c) <= 5)%nat /\
  NoDup (map fst (get_all_monitors_run calls c)).
Proof.
  induction calls as [|[[self now] ipc] rest IH]; intros c Hlen Hnd; [auto|].
  simpl. destruct (get_all_monitors_well_formed self now ipc c Hlen Hnd).
  now apply IH.
Qed.

(** X3: starting from the empty cache, whatever calls are made, the cache
    never holds more than five mappings and never two for the same window
    and instance. *)
Theorem monitor_cache_bounded calls :
  (List.length (get_all_monitors_run calls []) <= 5)%nat /\
  NoDup (map fst (get_all_monitors_run calls [])).
Proof.
  apply get_all_monitors_run_well_formed; simpl; [lia|constructor].
Qed.

Lemma remove_behind k' k d (front back : Monitors.monitor_cache) :
  k' <> k ->
  exists front' back',
    Monitors.remove Monitors.cache_key_eqb k' (front ++ (k, d) :: back)%list
      = (front' ++ (k, d) :: back')%list /\
    incl (map fst front') (map fst front).
Proof.
  intros Hne. induction front as [|[a v] front (front' & back' & IH & Hincl)]; simpl.
  - rewrite cache_key_eqb_neq by congruence.
    exists [], (Monitors.remove Monitors.cache_key_eqb k' back).
    split; [reflexivity|]. apply incl_refl.
  - destruct (Monitors.cache_key_eqb a k').
    + exists front, back. split; [reflexivity|]. apply incl_tl, incl_refl.
    + rewrite IH. exists ((a, v) :: front'), back'. split; [reflexivity|].
      simpl. apply incl_cons; [left; reflexivity|]. now apply incl_tl.
Qed.

(** An entry with fewer than five keys in front of it stays through a call
    for its own key or for one of at most four other keys. *)
Lemma retention_step self now ipc (c : Monitors.monitor_cache) k d others :
  (List.length c <= 5)%nat -> NoDup (map fst c) ->
  (exists front back,
     c = (front ++ (k, d) :: back)%list /\
     ~ In k (map fst front) /\ incl (map fst front) others) ->
  (Monitors.ttl 100 now, Monitors.ident self) = k \/
  In (Monitors.ttl 100 now, Monitors.ident self) others ->
  ~ In k others -> (List.length others <= 4)%nat ->
  exists front back,
    snd (fst (Monitors.get_all_monitors self now ipc c))
      = (front ++ (k, d) :: back)%list /\
    ~ In k (map fst front) /\ incl (map fst front) others.
Proof.
  intros Hlen Hnd (front & back & Hc & Hfront & Hincl) Hkey Hk Hothers.
  destruct Hkey as [Hkey|Hkey].
  - pose proof (lookup_behind k d front back Hfront) as Hl.
    rewrite <- Hc, <- Hkey in Hl.
    unfold Monitors.get_all_monitors, Monitors.ttl_lru_cache, Monitors.lru_call.
    rewrite Hl, Hkey. cbn [fst snd].
    exists [], (Monitors.remove Monitors.cache_key_eqb k c).
    split; [reflexivity|]. split; [intros []|intros x []].
  - set (key := (Monitors.ttl 100 now, Monitors.ident self)) in *.
    assert (Hne : key <> k) by (intros ->; contradiction).
    destruct (get_all_monitors_step self now ipc c Hlen) as (d' & _ & Hstep).
    fold key in Hstep. rewrite Hstep.
    destruct (remove_NoDup key c Hnd) as [Hnd' Hnotin].
    destruct (remove_behind key k d front back Hne) as (front' & back' & Hrem & Hincl').
    rewrite <- Hc in Hrem. rewrite Hrem in *.
    assert (Hnf : NoDup (key :: map fst front')).
    { constructor.
      - intros H. apply Hnotin. rewrite map_app. apply in_or_app. now left.
      - rewrite map_app in Hnd'. now apply NoDup_app_remove_r in Hnd'. }
    assert (Hsub : incl (key :: map fst front') others).
    { apply incl_cons; [exact Hkey|]. eapply incl_tran; eassumption. }
    pose proof (NoDup_incl_length Hnf Hsub) as Hshort. cbn [List.length] in Hshort.
    rewrite length_map in Hshort.
    change ((key, d') :: front' ++ (k, d) :: back')%list
      with (((key, d') :: front') ++ (k, d) :: back')%list.
    unfold Monitors.cache_key in *.
    rewrite firstn_app, firstn_all2 by (cbn [List.length]; lia).
    cbn [List.length].
    destruct (5 - S (List.length front'))%nat as [|m] eqn:Hm; [lia|].
    cbn [firstn].
    exists ((key, d') :: front'), (firstn m back'). split; [reflexivity|].
    split.
    + cbn [map fst]. intros [H|H]; [congruence|]. apply Hfront, Hincl', H.
    + exact Hsub.
Qed.

Lemma retention_run k d others mid : forall c : Monitors.monitor_cache,
  (List.length c <= 5)%nat -> NoDup (map fst c) ->
  (exists front back,
     c = (front ++ (k, d) :: back)%list /\
     ~ In k (map fst front) /\ incl (map fst front) others) ->
  Forall (fun call => key_of_call call = k \/ In (key_of_call call) others) mid ->
  ~ In k others -> (List.length others <= 4)%nat ->
  Monitors.lookup Monitors.cache_key_eqb k (get_all_monitors_run mid c) = Some d.
Proof.
  induction mid as [|[[self now] ipc] rest IH]; intros c Hlen Hnd Hinv Hmid Hk Hothers.
  - destruct Hinv as (front & back & -> & Hfront & _). now apply lookup_behind.
  - inversion Hmid as [|? ? Hcall Hrest]; subst. simpl.
    destruct (get_all_monitors_well_formed self now ipc c Hlen Hnd) as [Hlen' Hnd'].
    apply IH; try assumption.
    apply retention_step; assumption.
Qed.

(** X4: the mapping of a window stays cached for an instance while the calls
    made in between use at most four other keys (other windows or other
    instances): the next call of that instance in that window returns the
    same mapping and sends nothing. *)
Theorem monitor_cache_retention history self t1 ipc1 mid t2 ipc2 others :
  Monitors.ttl 100 t2 = Monitors.ttl 100 t1 ->
  Forall (fun call =>
            key_of_call call = (Monitors.ttl 100 t1, Monitors.ident self) \/
            In (key_of_call call) others) mid ->
  ~ In (Monitors.ttl 100 t1, Monitors.ident self) others ->
  (List.length others <= 4)%nat ->
  let res1 := Monitors.get_all_monitors self t1 ipc1 (get_all_monitors_run history []) in
  let res2 := Monitors.get_all_monitors self t2 ipc2
                (get_all_monitors_run mid (snd (fst res1))) in
  fst (fst res2) = fst (fst res1) /\ snd res2 = [].
Proof.
  intros Ht2 Hmid Hk Hothers. cbv zeta.
  destruct (get_all_monitors_run_well_formed history [] (Nat.le_0_l _) (NoDup_nil _))
    as [Hlen0 Hnd0].
  destruct (get_all_monitors_well_formed self t1 ipc1 _ Hlen0 Hnd0) as [Hlen1 Hnd1].
  destruct (get_all_monitors_step self t1 ipc1 _ Hlen0) as (d & Hr1 & Hc1).
  rewrite Hr1.
  assert (Hl : Monitors.lookup Monitors.cache_key_eqb
                 (Monitors.ttl 100 t1, Monitors.ident self)
                 (get_all_monitors_run mid
                    (snd (fst (Monitors.get_all_monitors self t1 ipc1
                                 (get_all_monitors_run history [])))))
               = Some d).
  { apply (retention_run _ d others); try assumption.
    rewrite Hc1. cbn [firstn].
    eexists [], _. split; [reflexivity|]. split; [intros []|intros x []]. }
  rewrite <- Ht2 in Hl.
  destruct (get_all_monitors_hit self t2 ipc2 _ d Hl) as (c2 & -> & _).
  split; reflexivity.
Qed.

Lemma monitor_cache_retention_witness :
  let a := Monitors.Build_HyprlandWithMonitors 0 false (display_of_outputs []) in
  let b := Monitors.Build_HyprlandWithMonitors 1 false (display_of_outputs []) in
  let ipc := fun _ : string => Monitors.Reply (Some (Monitors.JArr [])) in
  let res1 := Monitors.get_all_monitors a (inject_Z 1000) ipc [] in
  let res2 := Monitors.get_all_monitors a (inject_Z 1050) ipc
                (get_all_monitors_run [(b, inject_Z 1020, ipc); (a, inject_Z 930, ipc)]
                   (snd (fst res1))) in
  fst (fst res2) = fst (fst res1) /\ snd res2 = [].
Proof.
  cbv zeta.
  apply (monitor_cache_retention []
           (Monitors.Build_HyprlandWithMonitors 0 false (display_of_outputs []))
           (inject_Z 1000) (fun _ => Monitors.Reply (Some (Monitors.JArr [])))
           [(Monitors.Build_HyprlandWithMonitors 1 false (display_of_outputs []),
             inject_Z 1020, fun _ => Monitors.Reply (Some (Monitors.JArr [])));
            (Monitors.Build_HyprlandWithMonitors 0 false (display_of_outputs []),
             inject_Z 930, fun _ => Monitors.Reply (Some (Monitors.JArr [])))]
           (inject_Z 1050) (fun _ => Monitors.Reply (Some (Monitors.JArr [])))
           [(10, 1%nat); (9, 0%nat)]).
  - reflexivity.
  - repeat constructor; right; simpl; auto.
  - simpl. intros [H|[H|[]]]; discriminate H.
  - simpl. lia.
Defined.

Lemma remove_keys_prefix k' pre : forall (c : Monitors.monitor_cache) tl,
  map fst c = (pre ++ tl)%list -> ~ In k' pre ->
  exists tl', map fst (Monitors.remove Monitors.cache_key_eqb k' c) = (pre ++ tl')%list.
Proof.
  induction pre as [|a pre IH]; intros c tl Hc Hn; [simpl; eauto|].
  destruct c as [|[a' v] c]; [discriminate Hc|]. simpl in Hc. injection Hc as -> Hc.
  simpl. rewrite cache_key_eqb_neq by (intros ->; apply Hn; left; reflexivity).
  destruct (IH c tl Hc) as (tl' & Htl'); [intros H; apply Hn; now right|].
  exists tl'. simpl. now rewrite Htl'.
Qed.

(** Calls with pairwise distinct keys pile these keys up at the front. *)
Lemma run_pushes mid : forall (c : Monitors.monitor_cache) pre tl,
  (List.length c <= 5)%nat -> NoDup (map fst c) ->
  map fst c = (pre ++ tl)%list ->
  NoDup (map key_of_call mid) ->
  (forall x, In x pre -> ~ In x (map key_of_call mid)) ->
  (List.length pre + List.length mid <= 5)%nat ->
  exists tl',
    map fst (get_all_monitors_run mid c)
      = (rev (map key_of_call mid) ++ pre ++ tl')%list.
Proof.
  induction mid as [|[[self now] ipc] rest IH];
    intros c pre tl Hlen Hnd Hc Hdistinct Hpre Hroom; [simpl; eauto|].
  cbn [get_all_monitors_run map] in *.
  change (key_of_call (self, now, ipc))
    with (Monitors.ttl 100 now, Monitors.ident self) in *.
  set (key := (Monitors.ttl 100 now, Monitors.ident self)) in *.
  inversion Hdistinct as [|? ? Hfresh Hrest]; subst.
  destruct (get_all_monitors_well_formed self now ipc c Hlen Hnd) as [Hlen' Hnd'].
  destruct (get_all_monitors_step self now ipc c Hlen) as (d & _ & Hstep).
  fold key in Hstep.
  destruct (remove_keys_prefix key pre c tl Hc) as (tl1 & Htl1).
  { intros H. apply (Hpre key H). left. reflexivity. }
  destruct (IH (snd (fst (Monitors.get_all_monitors self now ipc c)))
              (key :: pre) (firstn (5 - S (List.length pre)) tl1) Hlen' Hnd')
    as (tl' & Htl').
  - subst key. rewrite Hstep, <- firstn_map. cbn [map fst].
    unfold Monitors.cache_key in *. rewrite Htl1, app_comm_cons.
    rewrite firstn_app, firstn_all2 by (cbn [List.length] in *; lia).
    reflexivity.
  - exact Hrest.
  - intros x [<-|Hx]; [exact Hfresh|].
    intros H. apply (Hpre x Hx). now right.
  - cbn [List.length] in *. lia.
  - exists tl'. rewrite Htl'. cbn [rev]. rewrite <- !app_assoc. reflexivity.
Qed.

(** X5: five calls with pairwise distinct other keys (other windows or
    other instances) evict the mapping: the next call of the instance in
    the same window sends the request again and returns what the new reply
    gives. *)
Theorem monitor_cache_eviction history self t1 ipc1 mid t2 ipc2 :
  Monitors.ttl 100 t2 = Monitors.ttl 100 t1 ->
  NoDup (map key_of_call mid) ->
  List.length mid = 5%nat ->
  ~ In (Monitors.ttl 100 t1, Monitors.ident self) (map key_of_call mid) ->
  let res1 := Monitors.get_all_monitors self t1 ipc1 (get_all_monitors_run history []) in
  let res2 := Monitors.get_all_monitors self t2 ipc2
                (get_all_monitors_run mid (snd (fst res1))) in
  (fst (fst res2), snd res2) = Monitors.get_all_monitors_func self ipc2 /\
  hd_error (snd res2) = Some (Monitors.Send "j/monitors").
Proof.
  intros Ht2 Hdistinct Hfive Hk. cbv zeta.
  destruct (get_all_monitors_run_well_formed history [] (Nat.le_0_l _) (NoDup_nil _))
    as [Hlen0 Hnd0].
  destruct (get_all_monitors_well_formed self t1 ipc1 _ Hlen0 Hnd0) as [Hlen1 Hnd1].
  set (c1 := snd (fst (Monitors.get_all_monitors self t1 ipc1
                         (get_all_monitors_run history [])))) in *.
  destruct (run_pushes mid c1 [] (map fst c1) Hlen1 Hnd1 eq_refl Hdistinct)
    as (tl' & Hkeys).
  { intros x []. }
  { simpl. lia. }
  destruct (get_all_monitors_run_well_formed mid c1 Hlen1 Hnd1) as [Hlen2 _].
  assert (Htl : tl' = []).
  { apply (f_equal (@List.length _)) in Hkeys.
    rewrite length_map, length_app, length_rev, length_map in Hkeys.
    cbn [app] in Hkeys. unfold Monitors.cache_key in *.
    destruct tl'; [reflexivity|]. cbn [List.length] in Hkeys. lia. }
  subst tl'. cbn [app] in Hkeys. rewrite app_nil_r in Hkeys.
  destruct (get_all_monitors_miss self t2 ipc2 (get_all_monitors_run mid c1))
    as (d & c2 & Hf & -> & _).
  { apply lookup_none_iff. rewrite Hkeys, Ht2. intros H. apply in_rev in H. tauto. }
  cbn [fst snd]. split; [symmetry; exact Hf|apply get_all_monitors_func_sends].
Qed.

Lemma monitor_cache_eviction_witness :
  let a := Monitors.Build_HyprlandWithMonitors 0 false (display_of_outputs []) in
  let old := fun _ : string => Monitors.Reply (Some (Monitors.JArr [])) in
  let new := fun _ : string => Monitors.SendRaises OtherException in
  let res1 := Monitors.get_all_monitors a (inject_Z 1000) old [] in
  let res2 := Monitors.get_all_monitors a (inject_Z 1050) new
                (get_all_monitors_run
                   [(a, inject_Z 1100, old); (a, inject_Z 1200, old);
                    (a, inject_Z 1300, old); (a, inject_Z 1400, old);
                    (a, inject_Z 1500, old)]
                   (snd (fst res1))) in
  (fst (fst res2), snd res2) = Monitors.get_all_monitors_func a new.
Proof.
  cbv zeta.
  refine (proj1 (monitor_cache_eviction []
           (Monitors.Build_HyprlandWithMonitors 0 false (display_of_outputs []))
           (inject_Z 1000) (fun _ => Monitors.Reply (Some (Monitors.JArr [])))
           [(Monitors.Build_HyprlandWithMonitors 0 false (display_of_outputs []),
             inject_Z 1100, fun _ => Monitors.Reply (Some (Monitors.JArr [])));
            (Monitors.Build_HyprlandWithMonitors 0 false (display_of_outputs []),
             inject_Z 1200, fun _ => Monitors.Reply (Some (Monitors.JArr [])));
            (Monitors.Build_HyprlandWithMonitors 0 false (display_of_outputs []),
             inject_Z 1300, fun _ => Monitors.Reply (Some (Monitors.JArr [])));
            (Monitors.Build_HyprlandWithMonitors 0 false (display_of_outputs []),
             inject_Z 1400, fun _ => Monitors.Reply (Some (Monitors.JArr [])));
            (Monitors.Build_HyprlandWithMonitors 0 false (display_of_outputs []),
             inject_Z 1500, fun _ => Monitors.Reply (Some (Monitors.JArr [])))]
           (inject_Z 1050) (fun _ => Monitors.SendRaises OtherException)
           eq_refl _ eq_refl _)).
  - repeat constructor; simpl; intuition discriminate.
  - simpl. intuition discriminate.
Defined.

(** X6: a failure is cached like a reply: after a call that reached the
    socket and failed, the calls of the same instance in the same window
    keep returning the fallback mapping and send nothing, whatever the
    socket would answer by then. *)
Theorem monitors_failure_is_cached self t1 ipc1 t2 ipc2 c e :
  Monitors.lookup Monitors.cache_key_eqb
    (Monitors.ttl 100 t1, Monitors.ident self) c = None ->
  fst (Monitors.get_all_monitors_body ipc1) = inl e ->
  Monitors.ttl 100 t2 = Monitors.ttl 100 t1 ->
  let res1 := Monitors.get_all_monitors self t1 ipc1 c in
  let res2 := Monitors.get_all_monitors self t2 ipc2 (snd (fst res1)) in
  fst (fst res2) =
    inr (if Monitors.vm_mode self then Monitors.fallback_monitors else []) /\
  snd res2 = [].
Proof.
  intros Hl Hfail Ht2. cbv zeta.
  destruct (get_all_monitors_miss self t1 ipc1 c Hl) as (d & c1 & Hf & -> & Hl1).
  cbn [fst snd].
  pose proof (get_all_monitors_func_failure self ipc1 e Hfail) as Hd.
  rewrite Hf in Hd. cbn [fst] in Hd. rewrite <- Ht2 in Hl1.
  destruct (get_all_monitors_hit self t2 ipc2 c1 d Hl1) as (c2 & -> & _).
  cbn [fst snd]. split; [exact Hd|reflexivity].
Qed.

Lemma monitors_failure_is_cached_witness :
  let a := Monitors.Build_HyprlandWithMonitors 0 true (display_of_outputs []) in
  let down := fun _ : string => Monitors.SendRaises OtherException in
  let up := fun _ : string =>
    Monitors.Reply (Some (Monitors.JArr
      [Monitors.JObj [("id"%string, Monitors.JInt 0);
                      ("name"%string, Monitors.JStr "eDP-1")]])) in
  let res1 := Monitors.get_all_monitors a (inject_Z 1000) down [] in
  let res2 := Monitors.get_all_monitors a (inject_Z 1099) up (snd (fst res1)) in
  fst (fst res2) = inr [(Monitors.JInt 0, Monitors.JStr "XWAYLAND0")] /\
  snd res2 = [].
Proof.
  cbv zeta.
  exact (monitors_failure_is_cached
           (Monitors.Build_HyprlandWithMonitors 0 true (display_of_outputs []))
           (inject_Z 1000) (fun _ => Monitors.SendRaises OtherException)
           (inject_Z 1099) _ [] OtherException eq_refl eq_refl eq_refl).
Defined.

(** X7: the cache keeps the instances apart: a call of one instance never
    makes a hit for another instance that has nothing cached for the
    window; that instance sends its own request. *)
Theorem monitor_cache_per_instance a ta ipc_a b tb ipc_b c :
  Monitors.ident a <> Monitors.ident b ->
  Monitors.lookup Monitors.cache_key_eqb
    (Monitors.ttl 100 tb, Monitors.ident b) c = None ->
  let res_a := Monitors.get_all_monitors a ta ipc_a c in
  let res_b := Monitors.get_all_monitors b tb ipc_b (snd (fst res_a)) in
  (fst (fst res_b), snd res_b) = Monitors.get_all_monitors_func b ipc_b /\
  hd_error (snd res_b) = Some (Monitors.Send "j/monitors").
Proof.
  intros Hid Hl. cbv zeta.
  destruct (get_all_monitors_miss b tb ipc_b
              (snd (fst (Monitors.get_all_monitors a ta ipc_a c))))
    as (d & c2 & Hf & -> & _).
  - apply lookup_none_iff. apply lookup_none_iff in Hl. intros Hin. apply Hl.
    unfold Monitors.get_all_monitors, Monitors.ttl_lru_cache, Monitors.lru_call in Hin.
    destruct (Monitors.lookup _ _ c) as [d|].
    + cbn [fst snd map] in Hin. destruct Hin as [H|H].
      * injection H as _ H. congruence.
      * eapply remove_keys_incl, H.
    + destruct (Monitors.get_all_monitors_func a ipc_a) as [[e|d] tr];
        cbn [fst snd] in Hin; [exact Hin|].
      rewrite <- firstn_map in Hin. apply firstn_incl in Hin.
      destruct Hin as [H|H]; [injection H as _ H; congruence|exact H].
  - cbn [fst snd]. split; [symmetry; exact Hf|apply get_all_monitors_func_sends].
Qed.

Lemma monitor_cache_per_instance_witness :
  let a := Monitors.Build_HyprlandWithMonitors 0 false (display_of_outputs []) in
  let b := Monitors.Build_HyprlandWithMonitors 1 false (display_of_outputs []) in
  let ipc := fun _ : string => Monitors.Reply (Some (Monitors.JArr [])) in
  let res_a := Monitors.get_all_monitors a (inject_Z 1000) ipc [] in
  let res_b := Monitors.get_all_monitors b (inject_Z 1000) ipc (snd (fst res_a)) in
  hd_error (snd res_b) = Some (Monitors.Send "j/monitors").
Proof.
  cbv zeta.
  refine (proj2 (monitor_cache_per_instance
           (Monitors.Build_HyprlandWithMonitors 0 false (display_of_outputs []))
           (inject_Z 1000) (fun _ => Monitors.Reply (Some (Monitors.JArr [])))
           (Monitors.Build_HyprlandWithMonitors 1 false (display_of_outputs []))
           (inject_Z 1000) (fun _ => Monitors.Reply (Some (Monitors.JArr [])))
           [] _ eq_refl)).
  simpl. discriminate.
Defined.

(** ** The three lookups *)

Lemma scan_value_str d s indices :
  Monitors.scan_value d (Monitors.JStr s) indices = Monitors.scan d s indices.
Proof.
  induction indices as [|i rest IH]; simpl; [reflexivity|].
  destruct (Monitors.get_monitor_plug_name d i) as [e|[name|]]; simpl;
    rewrite IH; reflexivity.
Qed.

(** Called with a string, the method is the one of the claims. *)
Lemma get_gdk_monitor_id_from_value_str self s :
  Monitors.get_gdk_monitor_id_from_value self (Monitors.JStr s)
    = Monitors.get_gdk_monitor_id_from_name self s.
Proof.
  unfold Monitors.get_gdk_monitor_id_from_value, Monitors.get_gdk_monitor_id_from_name.
  destruct (Monitors.get_n_monitors _); [reflexivity|].
  rewrite scan_value_str. reflexivity.
Qed.

Lemma get_gdk_monitor_id_from_value_returns self plug_name :
  exists r tr,
    Monitors.get_gdk_monitor_id_from_value self plug_name = (inr r, tr) /\
    (Monitors.vm_mode self = true -> r <> None) /\
    (forall command, ~ In (Monitors.Send command) tr).
Proof.
  unfold Monitors.get_gdk_monitor_id_from_value, Monitors.vm_fallback.
  destruct (Monitors.get_n_monitors _) as [e|n].
  - do 2 eexists. split; [reflexivity|]. split.
    + intros ->. discriminate.
    + intros command [H|[]]. discriminate H.
  - destruct (Monitors.scan_value _ _ _) as [i|]; do 2 eexists;
      (split; [reflexivity|]); (split; [|intros command []]).
    + discriminate.
    + intros ->. discriminate.
Qed.

Lemma scan_seq_sound d plug_name len : forall a i,
  Monitors.scan d plug_name (map Z.of_nat (seq a len)) = Some i ->
  exists k,
    i = Z.of_nat k /\ (a <= k < a + len)%nat /\
    matches d plug_name i /\
    forall j, (a <= j < k)%nat -> ~ matches d plug_name (Z.of_nat j).
Proof.
  induction len as [|len IH]; intros a i Hscan; [discriminate Hscan|].
  cbn [seq map] in Hscan.
  assert (Hcase : matches d plug_name (Z.of_nat a) \/ ~ matches d plug_name (Z.of_nat a)).
  { unfold matches.
    destruct (Monitors.get_monitor_plug_name d (Z.of_nat a)) as [e|[name|]];
      try (right; discriminate).
    destruct (String.eqb_spec name plug_name) as [->|Hne]; [left; reflexivity|].
    right. congruence. }
  destruct Hcase as [Hm|Hn].
  - rewrite scan_stops in Hscan by exact Hm. injection Hscan as <-.
    exists a. split; [reflexivity|]. split; [lia|]. split; [exact Hm|].
    intros j Hj. lia.
  - rewrite scan_skips in Hscan by exact Hn.
    destruct (IH (S a) i Hscan) as (k & -> & Hk & Hm & Hmin).
    exists k. split; [reflexivity|]. split; [lia|]. split; [exact Hm|].
    intros j Hj. destruct (Nat.eq_dec j a) as [->|Hne]; [exact Hn|].
    apply Hmin. lia.
Qed.

(** X8: outside VM mode an index returned by
    [get_gdk_monitor_id_from_name] is always a valid index of the display
    whose plug name is the one asked for, and the first such index. *)
Theorem gdk_monitor_id_sound self plug_name i :
  Monitors.vm_mode self = false ->
  fst (Monitors.get_gdk_monitor_id_from_name self plug_name) = inr (Some i) ->
  exists n,
    Monitors.get_n_monitors (Monitors.display self) = inr n /\
    0 <= i < n /\
    matches (Monitors.display self) plug_name i /\
    forall j, 0 <= j < i -> ~ matches (Monitors.display self) plug_name j.
Proof.
  intros Hvm. unfold Monitors.get_gdk_monitor_id_from_name, Monitors.vm_fallback,
    Monitors.range. rewrite Hvm.
  destruct (Monitors.get_n_monitors _) as [e|n]; [discriminate|].
  destruct (Monitors.scan _ _ _) as [i'|] eqn:Hscan; [|discriminate].
  cbn [fst]. intros H. injection H as ->.
  destruct (scan_seq_sound _ _ _ _ _ Hscan) as (k & -> & Hk & Hm & Hmin).
  exists n. split; [reflexivity|]. split; [lia|]. split; [exact Hm|].
  intros j Hj. rewrite <- (Z2Nat.id j) by lia. apply Hmin. lia.
Qed.

Lemma gdk_monitor_id_sound_witness :
  let d := display_of_outputs
             [inl OtherException; inr (Some "HDMI-1"%string); inr (Some "HDMI-1"%string)] in
  let self := Monitors.Build_HyprlandWithMonitors 0 false d in
  fst (Monitors.get_gdk_monitor_id_from_name self "HDMI-1") = inr (Some 1) /\
  exists n,
    Monitors.get_n_monitors d = inr n /\ 0 <= 1 < n /\ matches d "HDMI-1" 1.
Proof.
  cbv zeta. split; [reflexivity|].
  destruct (gdk_monitor_id_sound
              (Monitors.Build_HyprlandWithMonitors 0 false
                 (display_of_outputs
                    [inl OtherException; inr (Some "HDMI-1"%string);
                     inr (Some "HDMI-1"%string)]))
              "HDMI-1" 1 eq_refl eq_refl) as (n & Hn & Hi & Hm & _).
  exists n. split; [exact Hn|]. split; [exact Hi|exact Hm].
Defined.

(** X9: none of the three lookups raises, whatever the socket, the cache
    and the display do; and in VM mode each of them returns an index, never
    [None]. *)
Theorem lookups_always_answer self plug_name hyprland_id now ipc c :
  (exists r,
     fst (Monitors.get_gdk_monitor_id_from_name self plug_name) = inr r /\
     (Monitors.vm_mode self = true -> r <> None)) /\
  (exists r,
     fst (fst (Monitors.get_gdk_monitor_id self hyprland_id now ipc c)) = inr r /\
     (Monitors.vm_mode self = true -> r <> None)) /\
  (exists r,
     fst (Monitors.get_current_gdk_monitor_id self ipc) = inr r /\
     (Monitors.vm_mode self = true -> r <> None)).
Proof.
  assert (Hfb : Monitors.vm_mode self = true -> Monitors.vm_fallback self <> None).
  { unfold Monitors.vm_fallback. intros ->. discriminate. }
  split; [|split].
  - rewrite <- get_gdk_monitor_id_from_value_str.
    destruct (get_gdk_monitor_id_from_value_returns self (Monitors.JStr plug_name))
      as (r & tr & -> & Hr & _). cbn [fst]. eauto.
  - unfold Monitors.get_gdk_monitor_id.
    destruct (Monitors.get_all_monitors self now ipc c) as [[[e|monitors] c'] tr];
      [cbn [fst]; eauto|].
    destruct (Monitors.dict_get monitors _) as [name|]; [|cbn [fst]; eauto].
    destruct (get_gdk_monitor_id_from_value_returns self name)
      as (r & tr' & -> & Hr & _). cbn [fst]. eauto.
  - unfold Monitors.get_current_gdk_monitor_id.
    destruct (ipc _) as [e|[ws|]]; try (cbn [fst]; eauto).
    destruct (Monitors.getitem ws _) as [e|name]; [cbn [fst]; eauto|].
    destruct (get_gdk_monitor_id_from_value_returns self name)
      as (r & tr' & -> & Hr & _). cbn [fst]. eauto.
Qed.

(** X10: end to end, on a call that reaches the socket: when the reply
    lists the id with a name (the last monitor listed with that id counts)
    and output [i] is the first output of the display with that plug name,
    [get_gdk_monitor_id] returns [i]. *)
Theorem get_gdk_monitor_id_resolves
    self hyprland_id now ipc c items entries pre name post n i :
  Monitors.lookup Monitors.cache_key_eqb
    (Monitors.ttl 100 now, Monitors.ident self) c = None ->
  ipc "j/monitors"%string = Monitors.Reply (Some (Monitors.JArr items)) ->
  Forall2 (fun monitor entry =>
             Monitors.getitem monitor "id" = inr (Monitors.JInt (fst entry)) /\
             Monitors.getitem monitor "name" = inr (snd entry)) items entries ->
  entries = (pre ++ (hyprland_id, Monitors.JStr name) :: post)%list ->
  ~ In hyprland_id (map fst post) ->
  Monitors.get_n_monitors (Monitors.display self) = inr n ->
  0 <= i < n ->
  matches (Monitors.display self) name i ->
  (forall j, 0 <= j < i -> ~ matches (Monitors.display self) name j) ->
  fst (fst (Monitors.get_gdk_monitor_id self hyprland_id now ipc c)) = inr (Some i).
Proof.
  intros Hl Hipc Hwf Hentries Hlast Hn Hi Hm Hmin.
  destruct (comprehension_lookup items entries [] Hwf) as (d & Hd & Hget & _).
  destruct (get_all_monitors_miss self now ipc c Hl) as (d' & c' & Hf & Hcall & _).
  assert (Hdd : d' = d).
  { unfold Monitors.get_all_monitors_func, Monitors.get_all_monitors_body in Hf.
    rewrite Hipc in Hf. cbn [Monitors.iterate] in Hf. rewrite Hd in Hf.
    injection Hf as Hf. congruence. }
  subst d'.
  unfold Monitors.get_gdk_monitor_id. rewrite Hcall.
  rewrite (Hget pre hyprland_id (Monitors.JStr name) post Hentries Hlast).
  rewrite get_gdk_monitor_id_from_value_str.
  unfold Monitors.get_gdk_monitor_id_from_name, Monitors.range. rewrite Hn.
  rewrite (scan_seq_first _ _ (Z.to_nat n) 0%nat (Z.to_nat i)).
  - rewrite Z2Nat.id by lia. reflexivity.
  - lia.
  - rewrite Z2Nat.id by lia. exact Hm.
  - intros j Hj. apply Hmin. lia.
Qed.

Lemma get_gdk_monitor_id_resolves_witness :
  fst (fst (Monitors.get_gdk_monitor_id
              (Monitors.Build_HyprlandWithMonitors 0 false
                 (display_of_outputs
                    [inr (Some "eDP-1"%string); inr (Some "HDMI-A-1"%string)]))
              1 (inject_Z 1000)
              (fun _ => Monitors.Reply (Some (Monitors.JArr
                 [Monitors.JObj [("id"%string, Monitors.JInt 0);
                                 ("name"%string, Monitors.JStr "eDP-1")];
                  Monitors.JObj [("id"%string, Monitors.JInt 1);
                                 ("name"%string, Monitors.JStr "HDMI-A-1")]])))
              []))
    = inr (Some 1).
Proof.
  apply (get_gdk_monitor_id_resolves
           (Monitors.Build_HyprlandWithMonitors 0 false
              (display_of_outputs
                 [inr (Some "eDP-1"%string); inr (Some "HDMI-A-1"%string)]))
           1 (inject_Z 1000)
           (fun _ => Monitors.Reply (Some (Monitors.JArr
              [Monitors.JObj [("id"%string, Monitors.JInt 0);
                              ("name"%string, Monitors.JStr "eDP-1")];
               Monitors.JObj [("id"%string, Monitors.JInt 1);
                              ("name"%string, Monitors.JStr "HDMI-A-1")]])))
           []
           [Monitors.JObj [("id"%string, Monitors.JInt 0);
                           ("name"%string, Monitors.JStr "eDP-1")];
            Monitors.JObj [("id"%string, Monitors.JInt 1);
                           ("name"%string, Monitors.JStr "HDMI-A-1")]]
           [(0, Monitors.JStr "eDP-1"); (1, Monitors.JStr "HDMI-A-1")]
           [(0, Monitors.JStr "eDP-1")] "HDMI-A-1" [] 2 1).
  - reflexivity.
  - reflexivity.
  - repeat constructor.
  - reflexivity.
  - intros [].
  - reflexivity.
  - lia.
  - reflexivity.
  - intros j Hj. assert (j = 0) as -> by lia. intros H; discriminate H.
Defined.

(** X11: an id that the mapping does not hold resolves to the fallback (0 in
    VM mode, [None] otherwise); in particular, outside VM mode, no id
    resolves when the call reaches the socket and fails. *)
Theorem get_gdk_monitor_id_unknown self hyprland_id now ipc c monitors c' tr :
  Monitors.get_all_monitors self now ipc c = (inr monitors, c', tr) ->
  Monitors.dict_get monitors (Monitors.JInt hyprland_id) = None ->
  Monitors.get_gdk_monitor_id self hyprland_id now ipc c =
    (inr (if Monitors.vm_mode self then Some 0 else None), c', tr) /\
  (forall e other_id,
     Monitors.vm_mode self = false ->
     Monitors.lookup Monitors.cache_key_eqb
       (Monitors.ttl 100 now, Monitors.ident self) c = None ->
     fst (Monitors.get_all_monitors_body ipc) = inl e ->
     fst (fst (Monitors.get_gdk_monitor_id self other_id now ipc c)) = inr None).
Proof.
  intros Hcall Hget. split.
  - unfold Monitors.get_gdk_monitor_id. rewrite Hcall, Hget. reflexivity.
  - intros e other_id Hvm Hl Hfail.
    destruct (get_all_monitors_miss self now ipc c Hl) as (d & c2 & Hf & Hc & _).
    pose proof (get_all_monitors_func_failure self ipc e Hfail) as Hd.
    rewrite Hf, Hvm in Hd. cbn [fst] in Hd. injection Hd as ->.
    unfold Monitors.get_gdk_monitor_id, Monitors.vm_fallback.
    rewrite Hc, Hvm. reflexivity.
Qed.

Lemma get_gdk_monitor_id_unknown_witness :
  Monitors.get_gdk_monitor_id
    (Monitors.Build_HyprlandWithMonitors 0 true (display_of_outputs []))
    7 (inject_Z 1000) (fun _ => Monitors.Reply None) []
  = (inr (Some 0),
     [((10, 0%nat), [(Monitors.JInt 0, Monitors.JStr "XWAYLAND0")])],
     [Monitors.Send "j/monitors"; Monitors.Log Warning]).
Proof.
  exact (proj1 (get_gdk_monitor_id_unknown
                  (Monitors.Build_HyprlandWithMonitors 0 true (display_of_outputs []))
                  7 (inject_Z 1000) (fun _ => Monitors.Reply None) []
                  _ _ _ eq_refl eq_refl)).
Defined.

(** X12: [get_current_gdk_monitor_id] asks the socket on every call.  When
    the reply is an object whose ["monitor"] is a string, the result is that
    of [get_gdk_monitor_id_from_name] for it; when the request raises, the
    reply does not parse or has no ["monitor"], the result is the fallback
    and the error is logged. *)
Theorem get_current_gdk_monitor_id_cases self ipc :
  hd_error (snd (Monitors.get_current_gdk_monitor_id self ipc))
    = Some (Monitors.Send "j/activeworkspace") /\
  (forall active_workspace name,
     ipc "j/activeworkspace"%string = Monitors.Reply (Some active_workspace) ->
     Monitors.getitem active_workspace "monitor" = inr (Monitors.JStr name) ->
     Monitors.get_current_gdk_monitor_id self ipc =
       (fst (Monitors.get_gdk_monitor_id_from_name self name),
        Monitors.Send "j/activeworkspace"
          :: snd (Monitors.get_gdk_monitor_id_from_name self name))) /\
  ((exists e, ipc "j/activeworkspace"%string = Monitors.SendRaises e) \/
   ipc "j/activeworkspace"%string = Monitors.Reply None \/
   (exists active_workspace e,
      ipc "j/activeworkspace"%string = Monitors.Reply (Some active_workspace) /\
      Monitors.getitem active_workspace "monitor" = inl e) ->
   Monitors.get_current_gdk_monitor_id self ipc =
     (inr (if Monitors.vm_mode self then Some 0 else None),
      [Monitors.Send "j/activeworkspace"; Monitors.Log Error])).
Proof.
  split; [|split].
  - unfold Monitors.get_current_gdk_monitor_id.
    destruct (ipc _) as [e|[ws|]]; try reflexivity.
    destruct (Monitors.getitem ws _) as [e|name]; [reflexivity|].
    destruct (Monitors.get_gdk_monitor_id_from_value self name) as [[e|r] tr];
      reflexivity.
  - intros ws name Hipc Hname. unfold Monitors.get_current_gdk_monitor_id.
    rewrite Hipc, Hname, get_gdk_monitor_id_from_value_str.
    destruct (get_gdk_monitor_id_from_value_returns self (Monitors.JStr name))
      as (r & tr & Hr & _).
    rewrite get_gdk_monitor_id_from_value_str in Hr. rewrite Hr. reflexivity.
  - unfold Monitors.get_current_gdk_monitor_id, Monitors.vm_fallback.
    intros [[e ->]|[->|(ws & e & -> & ->)]]; reflexivity.
Qed.

(** A name in the reply that is neither a string nor null equals no plug
    name, and null equals only the absence of a plug name. *)
Lemma scan_value_none d plug_name indices :
  (forall i, In i indices ->
     forall name, Monitors.get_monitor_plug_name d i = inr name ->
                  Monitors.plug_name_eqb name plug_name = false) ->
  Monitors.scan_value d plug_name indices = None.
Proof.
  induction indices as [|i rest IH]; intros Hno; [reflexivity|]. simpl.
  destruct (Monitors.get_monitor_plug_name d i) as [e|name] eqn:Hi.
  - apply IH. intros j Hj. apply Hno. now right.
  - rewrite (Hno i (or_introl eq_refl) name Hi). apply IH.
    intros j Hj. apply Hno. now right.
Qed.

(** X13: a monitor whose ["name"] in the reply is a number, a boolean, a
    list or an object never matches an output: its id resolves to the
    fallback, whatever the display holds. *)
Theorem non_string_name_never_matches self plug_name :
  match plug_name with
  | Monitors.JStr _ | Monitors.JNull => False
  | _ => True
  end ->
  fst (Monitors.get_gdk_monitor_id_from_value self plug_name) =
    inr (if Monitors.vm_mode self then Some 0 else None).
Proof.
  intros Hkind. unfold Monitors.get_gdk_monitor_id_from_value, Monitors.vm_fallback.
  destruct (Monitors.get_n_monitors _) as [e|n]; [reflexivity|].
  rewrite scan_value_none; [reflexivity|].
  intros i _ name _. destruct name, plug_name; try reflexivity; contradiction.
Qed.

Lemma non_string_name_never_matches_witness :
  fst (Monitors.get_gdk_monitor_id_from_value
         (Monitors.Build_HyprlandWithMonitors 0 false
            (display_of_outputs [inr (Some "1"%string); inr None]))
         (Monitors.JInt 1)) = inr None.
Proof.
  exact (non_string_name_never_matches
           (Monitors.Build_HyprlandWithMonitors 0 false
              (display_of_outputs [inr (Some "1"%string); inr None]))
           (Monitors.JInt 1) I).
Defined.

(** * Further properties of the brightness service *)

(** ** Ends of the scale *)

Lemma SFdiv_core_self p :
  SFdiv_core_binary 53 1024 (Z.pos p) 0 (Z.pos p) 0
    = (9007199254740992, -53, loc_Exact).
Proof.
  unfold SFdiv_core_binary. cbv zeta.
  replace (Zdigits2 (Z.pos p) + 0 - (Zdigits2 (Z.pos p) + 0)) with 0 by lia.
  change (Z.min (fexp 53 1024 0) (0 - 0)) with (-53).
  change (0 - 0 - -53) with 53. cbv iota.
  rewrite Z.shiftl_mul_pow2 by lia.
  pose proof (Z_div_mod (Z.pos p * 2 ^ 53) (Z.pos p) ltac:(lia)) as Hdm.
  destruct (Z.div_eucl (Z.pos p * 2 ^ 53) (Z.pos p)) as [q r].
  destruct Hdm as [Heq Hr].
  assert (Hq : q = 2 ^ 53) by nia.
  assert (Hr0 : r = 0) by nia.
  subst q r. unfold new_location.
  destruct (Z.even (Z.pos p)); reflexivity.
Qed.

Lemma percentage_full m : 0 < m -> Brightness.percentage m m = inr 100.
Proof.
  intros Hm. destruct m as [|p|p]; try lia.
  unfold Brightness.percentage, PyFloat.truediv, PyFloat.div, PyFloat.of_int, SFdiv.
  change PyFloat.prec with 53. change PyFloat.emax with 1024.
  rewrite SFdiv_core_self. reflexivity.
Qed.

Lemma percentage_zero m : m <> 0 -> Brightness.percentage 0 m = inr 0.
Proof. intros Hm. destruct m; [contradiction|reflexivity|reflexivity]. Qed.

(** X14: with [max_screen > 0], a value at or above [max_screen] is reported
    as exactly 100, whatever [max_screen] is: the [screen] event of the call
    carries 100. *)
Theorem setter_full_scale dev shell value self :
  0 < Brightness.max_screen self ->
  Brightness.max_screen self <= value ->
  let cmd := ("brightnessctl --device '" ++ dev ++ "' set "
                ++ str_int (Brightness.max_screen self))%string in
  snd (Brightness.screen_brightness_set dev shell value self) =
    (if Brightness.simulated dev (Brightness.vm_mode self) then
       [Brightness.Emit "screen" 100; Brightness.Log Debug]
     else
       Brightness.ShellAsync cmd ::
       match shell cmd with
       | Some e => [Brightness.Log (handler_level e)]
       | None => [Brightness.Emit "screen" 100]
       end).
Proof.
  intros Hmax Hv. cbv zeta.
  assert (Hc : Brightness.clamp value (Brightness.max_screen self)
               = Brightness.max_screen self).
  { rewrite clamp_eq.
    destruct (0 <=? value) eqn:H0; destruct (value <=? Brightness.max_screen self) eqn:H1;
      simpl; lia. }
  rewrite screen_brightness_set_eq. cbv zeta. rewrite Hc, percentage_full by exact Hmax.
  destruct (Brightness.simulated _ _); [reflexivity|].
  destruct (shell _); reflexivity.
Qed.

Lemma setter_full_scale_witness :
  snd (Brightness.screen_brightness_set "acpi_video0" (fun _ => None) 9
         (Brightness.mk false 100 "/sys/class/backlight/acpi_video0" 7 None)) =
    [Brightness.ShellAsync "brightnessctl --device 'acpi_video0' set 7";
     Brightness.Emit "screen" 100].
Proof.
  exact (setter_full_scale "acpi_video0" (fun _ => None) 9
           (Brightness.mk false 100 "/sys/class/backlight/acpi_video0" 7 None)
           ltac:(simpl; lia) ltac:(simpl; lia)).
Defined.

(** X15: with [max_screen] other than 0, a value at or below 0 is reported
    as 0, also when [max_screen] is negative. *)
Theorem setter_bottom_of_scale dev shell value self :
  Brightness.max_screen self <> 0 ->
  value <= 0 ->
  let cmd := ("brightnessctl --device '" ++ dev ++ "' set 0")%string in
  snd (Brightness.screen_brightness_set dev shell value self) =
    (if Brightness.simulated dev (Brightness.vm_mode self) then
       [Brightness.Emit "screen" 0; Brightness.Log Debug]
     else
       Brightness.ShellAsync cmd ::
       match shell cmd with
       | Some e => [Brightness.Log (handler_level e)]
       | None => [Brightness.Emit "screen" 0]
       end).
Proof.
  intros Hmax Hv. cbv zeta.
  assert (Hc : Brightness.clamp value (Brightness.max_screen self) = 0).
  { rewrite clamp_eq.
    destruct (0 <=? value) eqn:H0; destruct (value <=? Brightness.max_screen self) eqn:H1;
      simpl; lia. }
  rewrite screen_brightness_set_eq. cbv zeta. rewrite Hc, percentage_zero by exact Hmax.
  change (str_int 0) with "0"%string.
  destruct (Brightness.simulated _ _); [reflexivity|].
  cbn [String.append]. destruct (shell _); reflexivity.
Qed.

Lemma setter_bottom_of_scale_witness :
  snd (Brightness.screen_brightness_set "" (fun _ => None) (-20)
         (Brightness.mk true 100 "" 100 None)) =
    [Brightness.Emit "screen" 0; Brightness.Log Debug].
Proof.
  exact (setter_bottom_of_scale "" (fun _ => None) (-20)
           (Brightness.mk true 100 "" 100 None)
           ltac:(simpl; lia) ltac:(lia)).
Defined.

(** X16: with [max_screen = 0] (a max_brightness file that holds 0) the
    setter never emits [screen]: the division raises [ZeroDivisionError],
    which is caught and logged; the value 0 has been stored (simulated mode)
    or submitted (hardware mode) before that. *)
Theorem setter_zero_max dev shell value self :
  Brightness.max_screen self = 0 ->
  let cmd := ("brightnessctl --device '" ++ dev ++ "' set 0")%string in
  Brightness.screen_brightness_set dev shell value self =
    if Brightness.simulated dev (Brightness.vm_mode self) then
      (inr tt,
       Brightness.mk (Brightness.vm_mode self) 0
         (Brightness.screen_backlight_path self) 0 (Brightness.screen_monitor self),
       [Brightness.Log Exception])
    else
      (inr tt, self,
       Brightness.ShellAsync cmd ::
       match shell cmd with
       | Some e => [Brightness.Log (handler_level e)]
       | None => [Brightness.Log Exception]
       end).
Proof.
  intros Hmax. cbv zeta. rewrite screen_brightness_set_eq. cbv zeta. rewrite Hmax.
  assert (Hc : Brightness.clamp value 0 = 0).
  { pose proof (clamp_range value 0). lia. }
  rewrite Hc. change (Brightness.percentage 0 0) with (@inl exn Z ZeroDivisionError).
  change (str_int 0) with "0"%string.
  destruct (Brightness.simulated _ _); [reflexivity|].
  cbn [String.append]. destruct (shell _); reflexivity.
Qed.

Lemma setter_zero_max_witness :
  Brightness.screen_brightness_set "intel_backlight" (fun _ => None) 40
    (Brightness.mk false 100 "/sys/class/backlight/intel_backlight" 0 None) =
    (inr tt, Brightness.mk false 100 "/sys/class/backlight/intel_backlight" 0 None,
     [Brightness.ShellAsync "brightnessctl --device 'intel_backlight' set 0";
      Brightness.Log Exception]).
Proof.
  exact (setter_zero_max "intel_backlight" (fun _ => None) 40
           (Brightness.mk false 100 "/sys/class/backlight/intel_backlight" 0 None)
           eq_refl).
Defined.

(** ** Simulated mode *)

Lemma percentage_of_100_table :
  forallb (fun w =>
             match Brightness.percentage w 100 with
             | inr p => p =? (if (w =? 29) || (w =? 57) || (w =? 58) then w - 1 else w)
             | inl _ => false
             end)
          (map Z.of_nat (seq 0 101)) = true.
Proof. vm_compute. reflexivity. Qed.

Lemma percentage_of_100 w :
  0 <= w <= 100 ->
  Brightness.percentage w 100 =
    inr (if (w =? 29) || (w =? 57) || (w =? 58) then w - 1 else w).
Proof.
  intros Hw. pose proof percentage_of_100_table as Ht.
  rewrite forallb_forall in Ht. specialize (Ht w).
  destruct (Brightness.percentage w 100) as [e|p].
  - assert (false = true); [|discriminate].
    apply Ht. rewrite <- (Z2Nat.id w) by lia. apply in_map, in_seq. lia.
  - f_equal. apply Z.eqb_eq, Ht.
    rewrite <- (Z2Nat.id w) by lia. apply in_map, in_seq. lia.
Qed.

(** X17: in simulated mode the [screen] event carries the stored value
    itself, except for 29, 57 and 58, which are reported as 28, 56 and 57:
    there the binary64 product falls just below the integer and [int]
    truncates it. *)
Theorem simulated_payload fs calls shell value self0 tr0 :
  Brightness.init "" fs true = (inr self0, tr0) ->
  let self := set_all "" calls self0 in
  let stored := Z.max 0 (Z.min value 100) in
  snd (Brightness.screen_brightness_set "" shell value self) =
    [Brightness.Emit "screen"
       (if (stored =? 29) || (stored =? 57) || (stored =? 58)
        then stored - 1 else stored);
     Brightness.Log Debug].
Proof.
  rewrite init_simulated. intros Hinit. injection Hinit as <- _. cbv zeta.
  destruct (set_all_keeps_attributes "" calls (Brightness.mk true 100 "" 100 None))
    as (Hvm & Hmax & _). simpl in Hvm, Hmax.
  rewrite screen_brightness_set_eq. cbv zeta. rewrite Hvm, Hmax.
  assert (Hc : Brightness.clamp value 100 = Z.max 0 (Z.min value 100)).
  { rewrite clamp_eq.
    destruct (0 <=? value) eqn:H0; destruct (value <=? 100) eqn:H1; simpl; lia. }
  rewrite Hc, percentage_of_100 by lia. reflexivity.
Qed.

Lemma simulated_payload_witness :
  snd (Brightness.screen_brightness_set "" (fun _ => None) 57
         (set_all "" [(fun _ => None, 10)] (Brightness.mk true 100 "" 100 None))) =
    [Brightness.Emit "screen" 56; Brightness.Log Debug].
Proof.
  exact (simulated_payload (fun _ => Brightness.Absent) [(fun _ => None, 10)]
           (fun _ => None) 57 _ _ eq_refl).
Defined.

(** ** How calls compose *)

Lemma hardware_setter_catches_state dev shell value self :
  Brightness.simulated dev (Brightness.vm_mode self) = false ->
  snd (fst (Brightness.screen_brightness_set dev shell value self)) = self.
Proof.
  intros Hhw. rewrite screen_brightness_set_eq. cbv zeta. rewrite Hhw.
  destruct (shell _); [reflexivity|].
  destruct (Brightness.percentage _ _); reflexivity.
Qed.

Lemma set_all_app dev calls calls' self :
  set_all dev (calls ++ calls') self = set_all dev calls' (set_all dev calls self).
Proof.
  revert self. induction calls as [|[shell value] rest IH]; intros self; simpl;
    [reflexivity|apply IH].
Qed.

Lemma set_all_hardware dev calls : forall self,
  Brightness.simulated dev (Brightness.vm_mode self) = false ->
  set_all dev calls self = self.
Proof.
  induction calls as [|[shell value] rest IH]; intros self Hhw; simpl; [reflexivity|].
  rewrite hardware_setter_catches_state by exact Hhw. now apply IH.
Qed.

(** X19: a setter call does not depend on the setter calls before it:
    after any run of calls, the instance and the trace of a call are those
    of the same call on the fresh instance.  In particular the last call of
    a run decides the state, and setting the same value twice changes
    nothing more. *)
Theorem setter_forgets_history dev calls shell value self :
  let before := set_all dev calls self in
  snd (fst (Brightness.screen_brightness_set dev shell value before))
    = snd (fst (Brightness.screen_brightness_set dev shell value self)) /\
  snd (Brightness.screen_brightness_set dev shell value before)
    = snd (Brightness.screen_brightness_set dev shell value self) /\
  set_all dev (calls ++ [(shell, value)]) self
    = snd (fst (Brightness.screen_brightness_set dev shell value self)).
Proof.
  cbv zeta.
  assert (H : Brightness.screen_brightness_set dev shell value (set_all dev calls self)
              = (fst (fst (Brightness.screen_brightness_set dev shell value self)),
                 snd (fst (Brightness.screen_brightness_set dev shell value self)),
                 snd (Brightness.screen_brightness_set dev shell value self))).
  { destruct (Brightness.simulated dev (Brightness.vm_mode self)) eqn:Hmode.
    - destruct (set_all_keeps_attributes dev calls self) as (Hvm & Hmax & Hpath & Hmon).
      rewrite !screen_brightness_set_eq. cbv zeta.
      rewrite Hvm, Hmax, Hpath, Hmon, Hmode.
      destruct (Brightness.percentage _ _); reflexivity.
    - rewrite set_all_hardware by exact Hmode.
      destruct (Brightness.screen_brightness_set dev shell value self) as [[r s] tr].
      reflexivity. }
  rewrite set_all_app. cbn [set_all]. rewrite H. cbn [fst snd]. auto.
Qed.

(** ** Construction *)

(** X20: [__init__] raises exactly when it has to read max_brightness (it
    is not in simulated mode) and the file exists with a first line that is
    not an integer; otherwise it returns an instance with
    [simulated_brightness = 100], a file watch exactly when there is a
    device, and [max_screen] 100 in simulated mode, the file's integer in
    hardware mode, and -1 when the file is missing. *)
Theorem init_outcomes dev fs vm :
  let path := if truthy dev then ("/sys/class/backlight/" ++ dev)%string
              else ""%string in
  let max_file := fs (path_join path "max_brightness") in
  ((exists e tr, Brightness.init dev fs vm = (inl e, tr)) <->
   Brightness.simulated dev vm = false /\ max_file = Brightness.Unparsable) /\
  (forall self tr,
     Brightness.init dev fs vm = (inr self, tr) ->
     self =
       Brightness.mk vm 100 path
         (if Brightness.simulated dev vm then 100
          else match max_file with
               | Brightness.Holds n => n
               | _ => -1
               end)
         (if truthy dev then Some (path ++ "/brightness")%string else None)).
Proof.
  cbv zeta. unfold Brightness.init, Brightness.do_read_max_brightness,
    Brightness.read_int, Brightness.simulated.
  destruct dev as [|c dev]; cbn [truthy negb String.eqb andb]; destruct vm;
    cbn [andb negb];
    try destruct (fs _) as [| |n]; (split; [split|]);
    try (intros (e & tr & H); discriminate H);
    try (intros [H1 H2]; discriminate);
    try (intros [_ _]; eauto);
    try (intros (e & tr & H); auto);
    try (intros self tr H; injection H as <- _; reflexivity);
    try (intros self tr H; discriminate H).
Qed.

(** * Properties of the VM detection *)

Lemma prefix_empty s : String.prefix "" s = true.
Proof. destruct s; reflexivity. Qed.

Lemma prefix_app_l a b s :
  String.prefix (a ++ b) s = true -> String.prefix a s = true.
Proof.
  revert s. induction a as [|c a IH]; intros [|c' s]; simpl; try reflexivity;
    try discriminate.
  destruct (Ascii.ascii_dec c c'); [apply IH|discriminate].
Qed.

(** A text that contains [a ++ b] contains [a]. *)
Lemma str_contains_app_l a b s :
  str_contains (a ++ b) s = true -> str_contains a s = true.
Proof.
  induction s as [|c s IH]; cbn [str_contains]; rewrite !orb_true_iff.
  - intros [H|H]; [left; now apply prefix_app_l in H|discriminate].
  - intros [H|H]; [left; now apply prefix_app_l in H|right; auto].
Qed.

Lemma lower_char_space c : is_space (lower_char c) = is_space c.
Proof.
  destruct c as [[] [] [] [] [] [] [] []]; reflexivity.
Qed.

Lemma str_lower_lstrip s : str_lower (lstrip s) = lstrip (str_lower s).
Proof.
  induction s as [|c s IH]; simpl; [reflexivity|].
  rewrite lower_char_space. destruct (is_space c); [exact IH|reflexivity].
Qed.

Lemma str_lower_rstrip s : str_lower (rstrip s) = rstrip (str_lower s).
Proof.
  induction s as [|c s IH]; simpl; [reflexivity|].
  rewrite <- IH, lower_char_space.
  destruct (rstrip s) as [|c' kept]; simpl; [|reflexivity].
  destruct (is_space c); reflexivity.
Qed.

Section NoSpace.

(** A needle without white space, as all the names of virtual machines. *)
Variable needle : string.
Hypothesis needle_no_space :
  forallb (fun c => negb (is_space c)) (list_ascii_of_string needle) = true.
Hypothesis needle_not_empty : needle <> EmptyString.

Lemma prefix_space c s : is_space c = true -> String.prefix needle (String c s) = false.
Proof.
  intros Hc. destruct needle as [|n ns]; [contradiction|]. simpl.
  destruct (Ascii.ascii_dec n c) as [->|]; [|reflexivity].
  simpl in needle_no_space. rewrite Hc in needle_no_space. discriminate.
Qed.

Lemma str_contains_lstrip s : str_contains needle (lstrip s) = str_contains needle s.
Proof.
  induction s as [|c s IH]; [reflexivity|].
  cbn [lstrip]. destruct (is_space c) eqn:Hc; [|reflexivity].
  rewrite IH. cbn [str_contains]. now rewrite prefix_space.
Qed.

Lemma prefix_rstrip : forall prefix_of s,
  forallb (fun c => negb (is_space c)) (list_ascii_of_string prefix_of) = true ->
  String.prefix prefix_of (rstrip s) = String.prefix prefix_of s.
Proof.
  intros p s. revert p. induction s as [|c s IH]; intros p Hp; [reflexivity|].
  destruct p as [|n ns]; [rewrite !prefix_empty; reflexivity|].
  simpl in Hp. apply andb_true_iff in Hp. destruct Hp as [Hn Hns].
  cbn [rstrip]. specialize (IH ns Hns).
  destruct (rstrip s) as [|c' kept] eqn:Hr.
  - destruct (is_space c) eqn:Hc; simpl.
    + destruct (Ascii.ascii_dec n c) as [->|]; [|reflexivity].
      rewrite Hc in Hn. discriminate.
    + destruct (Ascii.ascii_dec n c); [exact IH|reflexivity].
  - simpl. destruct (Ascii.ascii_dec n c); [exact IH|reflexivity].
Qed.

Lemma str_contains_rstrip s : str_contains needle (rstrip s) = str_contains needle s.
Proof.
  induction s as [|c s IH]; [reflexivity|].
  pose proof (prefix_rstrip needle (String c s) needle_no_space) as Hp.
  cbn [rstrip] in *.
  destruct (rstrip s) as [|c' kept] eqn:Hr.
  - destruct (is_space c) eqn:Hc.
    + cbn [str_contains]. rewrite <- IH, prefix_space by exact Hc.
      destruct needle; [contradiction|reflexivity].
    + cbn [str_contains]. rewrite Hp, <- IH. reflexivity.
  - cbn [str_contains]. rewrite Hp. cbn [str_contains] in IH. rewrite IH.
    reflexivity.
Qed.

(** Stripping the text changes nothing for such a needle. *)
Lemma str_contains_strip s :
  str_contains needle (str_lower (str_strip s)) = str_contains needle (str_lower s).
Proof.
  unfold str_strip.
  rewrite str_lower_rstrip, str_lower_lstrip, str_contains_rstrip, str_contains_lstrip.
  reflexivity.
Qed.

End NoSpace.

Lemma product_names_without_strip text :
  any_in ["vmware"; "virtualbox"; "qemu"; "kvm"; "virtual"; "vm"]%string
    (str_lower (str_strip text))
  = any_in ["qemu"; "kvm"; "virtual"; "vm"]%string (str_lower text).
Proof.
  unfold any_in. cbn [existsb].
  rewrite !str_contains_strip by (reflexivity || discriminate).
  pose proof (str_contains_app_l "vm" "ware" (str_lower text)) as Hvm.
  pose proof (str_contains_app_l "virtual" "box" (str_lower text)) as Hvirtual.
  cbn [String.append] in Hvm, Hvirtual.
  destruct (str_contains "vmware" (str_lower text));
    destruct (str_contains "virtualbox" (str_lower text));
    destruct (str_contains "qemu" (str_lower text));
    destruct (str_contains "kvm" (str_lower text));
    try rewrite Hvm by reflexivity; try rewrite Hvirtual by reflexivity;
    destruct (str_contains "virtual" (str_lower text));
    destruct (str_contains "vm" (str_lower text)); reflexivity.
Qed.

(** X21: what the detection comes down to when each file either cannot be
    opened or holds ASCII text: the call returns, and it returns [True]
    exactly when the lower-cased product name contains "qemu", "kvm",
    "virtual" or "vm", or the lower-cased cpuinfo contains "vmware", "qemu",
    "kvm" or "hypervisor".  The [strip()] makes no difference, "vmware" and
    "virtualbox" add nothing to the first list, and a file that cannot be
    opened counts as no match. *)
Theorem is_running_in_vm_criterion product_name_file cpuinfo_file :
  match product_name_file with
  | Text text => is_ascii text = true
  | NotReadable => True
  | NotDecodable => False
  end ->
  match cpuinfo_file with
  | Text text => is_ascii text = true
  | NotReadable => True
  | NotDecodable => False
  end ->
  is_running_in_vm product_name_file cpuinfo_file =
    Returns
      (match product_name_file with
       | Text text =>
           any_in ["qemu"; "kvm"; "virtual"; "vm"]%string (str_lower text)
       | _ => false
       end
       ||
       match cpuinfo_file with
       | Text text =>
           any_in ["vmware"; "qemu"; "kvm"; "hypervisor"]%string (str_lower text)
       | _ => false
       end).
Proof.
  intros Hproduct Hcpuinfo. unfold is_running_in_vm.
  destruct product_name_file as [| |product]; [|contradiction|].
  - destruct cpuinfo_file as [| |cpuinfo]; [reflexivity|contradiction|].
    rewrite Hcpuinfo. destruct (any_in _ (str_lower cpuinfo)); reflexivity.
  - rewrite Hproduct, product_names_without_strip.
    destruct (any_in _ (str_lower product)); [reflexivity|].
    destruct cpuinfo_file as [| |cpuinfo]; [reflexivity|contradiction|].
    rewrite Hcpuinfo. destruct (any_in _ (str_lower cpuinfo)); reflexivity.
Qed.

Lemma is_running_in_vm_criterion_witness :
  is_ascii "Standard PC (Q35 + ICH9, 2009)" = true /\
  is_ascii "flags : fpu vme de hypervisor" = true /\
  is_running_in_vm (Text "Standard PC (Q35 + ICH9, 2009)")
    (Text "flags : fpu vme de hypervisor") = Returns true /\
  is_running_in_vm (Text "ThinkPad X1 Carbon") NotReadable = Returns false.
Proof.
  split; [reflexivity|]. split; [reflexivity|]. split.
  - exact (is_running_in_vm_criterion (Text "Standard PC (Q35 + ICH9, 2009)")
             (Text "flags : fpu vme de hypervisor") eq_refl eq_refl).
  - exact (is_running_in_vm_criterion (Text "ThinkPad X1 Carbon") NotReadable
             eq_refl I).
Defined.

Lemma str_contains_behind needle before rest :
  str_contains needle rest = true ->
  str_contains needle (before ++ rest) = true.
Proof.
  intros H. induction before as [|c before IH]; [exact H|].
  cbn [String.append str_contains]. rewrite IH. apply orb_true_r.
Qed.

Lemma str_lower_app a b : str_lower (a ++ b) = (str_lower a ++ str_lower b)%string.
Proof. induction a as [|c a IH]; simpl; [reflexivity|now rewrite IH]. Qed.

(** X22: the detection matches substrings: an ASCII product name that has
    the letters v and m next to each other, in either case, is reported as
    a VM, and cpuinfo is then not even read (it may be missing or
    undecodable). *)
Theorem product_name_with_vm_is_vm before after cpuinfo_file v m :
  is_ascii (before ++ String v (String m after)) = true ->
  (v = "v" \/ v = "V")%char -> (m = "m" \/ m = "M")%char ->
  is_running_in_vm (Text (before ++ String v (String m after))%string) cpuinfo_file
    = Returns true.
Proof.
  intros Hascii Hv Hm. unfold is_running_in_vm.
  rewrite Hascii, product_names_without_strip.
  assert (Hvm : str_contains "vm"
                  (str_lower (before ++ String v (String m after))) = true).
  { rewrite str_lower_app. apply str_contains_behind.
    destruct Hv as [-> | ->], Hm as [-> | ->]; simpl;
      destruct (str_lower after); reflexivity. }
  unfold any_in. cbn [existsb]. rewrite Hvm, !orb_true_r. reflexivity.
Qed.

Lemma product_name_with_vm_is_vm_witness :
  is_ascii "Latitude EVM 5" = true /\
  is_running_in_vm (Text "Latitude EVM 5") NotDecodable = Returns true.
Proof.
  split; [reflexivity|].
  exact (product_name_with_vm_is_vm "Latitude E" " 5" NotDecodable "V" "M"
           eq_refl (or_intror eq_refl) (or_intror eq_refl)).
Defined.

(** X23: how the module-level discovery sets the mode of the service.
    Only the first entry of /sys/class/backlight counts.  With a first
    entry the service is in hardware mode for that device, also when a VM
    is detected: it reads the device's max_brightness and watches its
    brightness file.  Without the directory or without an entry, a detected
    VM gives the simulated instance, and no file is read. *)
Theorem startup_modes listing fs vm :
  let dev := fst (Brightness.discover_screen_device listing) in
  (forall first rest,
     listing = Brightness.Entries (first :: rest) -> first <> EmptyString ->
     dev = first /\
     Brightness.simulated dev vm = false /\
     forall self tr,
       Brightness.init dev fs vm = (inr self, tr) ->
       Brightness.screen_backlight_path self = ("/sys/class/backlight/" ++ first)%string /\
       Brightness.screen_monitor self
         = Some ("/sys/class/backlight/" ++ first ++ "/brightness")%string /\
       Brightness.max_screen self =
         match fs (path_join ("/sys/class/backlight/" ++ first) "max_brightness") with
         | Brightness.Holds n => n
         | _ => -1
         end) /\
  (listing = Brightness.NoSuchDirectory \/ listing = Brightness.Entries [] ->
   dev = EmptyString /\
   (vm = true ->
    Brightness.init dev fs vm =
      (inr (Brightness.mk true 100 "" 100 None),
       [Brightness.Log Info; Brightness.Log Info]))).
Proof.
  cbv zeta. split.
  - intros first rest -> Hfirst. cbn [Brightness.discover_screen_device fst].
    split; [reflexivity|].
    assert (Htruthy : truthy first = true) by (destruct first; [contradiction|reflexivity]).
    assert (Hmode : Brightness.simulated first vm = false).
    { unfold Brightness.simulated. rewrite Htruthy. apply andb_false_r. }
    split; [exact Hmode|].
    intros self tr. unfold Brightness.init. rewrite Hmode, Htruthy.
    unfold Brightness.do_read_max_brightness, Brightness.read_int.
    assert (Hne : String.eqb first "" = false).
    { destruct first; [contradiction|reflexivity]. }
    rewrite Hne. cbn [andb].
    destruct (fs _); intros H; try discriminate H; injection H as <- _;
      cbn [Brightness.screen_backlight_path Brightness.screen_monitor
           Brightness.max_screen];
      (split; [reflexivity|split; reflexivity]).
  - intros [-> | ->]; cbn [Brightness.discover_screen_device fst];
      (split; [reflexivity|]); intros ->; reflexivity.
Qed.

(** * The time window of the cache *)






